(** * Energy dashboard (app.py): data loading, geo-code resolution,
      aggregation, chart builders and view callbacks.

    The dashboard is glue over pandas, plotly and dash.  The development
    embeds the program's own logic (which rows are selected, how they are
    grouped and summed, which guard returns which figure, which exception
    leaves [load_data]) and models the library calls it goes through at the
    level of their documented behaviour.

    Energy quantities are floating-point numbers in the program.  They are
    modelled by an exact commutative monoid ([Quantity]); rounding is outside
    the model. *)

From Stdlib Require Import ZArith List String Ascii Bool Lia.
From Stdlib Require Import Sorted Permutation DecimalString.
Import ListNotations.

Local Open Scope Z_scope.
Local Open Scope list_scope.

(* ================================================================== *)
(** ** Exceptions and results *)
(* ================================================================== *)

(** The Python exceptions that app.py names or that the pandas calls of
    [load_data] raise.  [OtherException] stands for any other class. *)
Inductive exn : Type :=
| FileNotFoundError (msg : string)
| ParserError (msg : string)
| EmptyDataError (msg : string)
| ValueError (msg : string)
| KeyError (msg : string)
| IndexError (msg : string)
| LookupError (msg : string)
| OtherException (cls msg : string).

Inductive result (A : Type) : Type :=
| Ok (a : A)
| Err (e : exn).
Arguments Ok {A} a.
Arguments Err {A} e.

Definition bind {A B : Type} (m : result A) (k : A -> result B) : result B :=
  match m with
  | Ok a => k a
  | Err e => Err e
  end.

Notation "x <- m ;; k" := (bind m (fun x => k))
  (at level 61, m at next level, right associativity).

(** [try: body except: handler]: the handler sees every exception raised by
    the body and decides what leaves the statement. *)
Definition try_except {A : Type} (body : result A) (handler : exn -> result A)
  : result A :=
  match body with
  | Ok a => Ok a
  | Err e => handler e
  end.

Fixpoint mapM {A B : Type} (f : A -> result B) (l : list A) : result (list B) :=
  match l with
  | [] => Ok []
  | x :: t => y <- f x ;; ys <- mapM f t ;; Ok (y :: ys)
  end.

(** Python's class hierarchy, as far as the [except] clauses of app.py see it:
    [KeyError] and [IndexError] derive from [LookupError]. *)
Definition is_FileNotFoundError (e : exn) : bool :=
  match e with FileNotFoundError _ => true | _ => false end.

Definition is_ParserError (e : exn) : bool :=
  match e with ParserError _ => true | _ => false end.

Definition is_LookupError (e : exn) : bool :=
  match e with
  | LookupError _ | KeyError _ | IndexError _ => true
  | _ => false
  end.

(** [str(int)] *)
Definition str_of_Z (z : Z) : string := NilZero.string_of_int (Z.to_int z).

(* ================================================================== *)
(** ** Quantities *)
(* ================================================================== *)

Class Quantity (V : Type) : Type := {
  qzero : V;
  qadd : V -> V -> V;
  qadd_assoc : forall a b c, qadd a (qadd b c) = qadd (qadd a b) c;
  qadd_comm : forall a b, qadd a b = qadd b a;
  qadd_0_l : forall a, qadd qzero a = a
}.

#[export] Instance Quantity_Z : Quantity Z := {
  qzero := 0;
  qadd := Z.add;
  qadd_assoc := Z.add_assoc;
  qadd_comm := Z.add_comm;
  qadd_0_l := Z.add_0_l
}.

Section Sums.
Context {V : Type} `{Quantity V}.

Definition qsum (l : list V) : V := fold_right qadd qzero l.


End Sums.

(* ================================================================== *)
(** ** Group keys: [groupby(...)] with its default [sort=True] *)
(* ================================================================== *)

Section Keys.
Context {K : Type} (K_eq_dec : forall a b : K, {a = b} + {a <> b})
        (leb : K -> K -> bool).

Fixpoint insert_sorted (k : K) (ks : list K) : list K :=
  match ks with
  | [] => [k]
  | h :: t => if leb k h then k :: ks else h :: insert_sorted k t
  end.

Definition sort_keys (ks : list K) : list K := fold_right insert_sorted [] ks.

(** The distinct keys, in ascending order. *)
Definition unique_keys (ks : list K) : list K := sort_keys (nodup K_eq_dec ks).
End Keys.

(* ================================================================== *)
(** ** The in-memory table *)
(* ================================================================== *)

Definition isin (s : string) (l : list string) : bool :=
  existsb (String.eqb s) l.

(** The energy-type dropdown: label and column name (dict [energy_types]). *)
Inductive EnergyType : Type := WindPower | SolarPower | HydroPower | OtherRenewables.

Definition column_name (t : EnergyType) : string :=
  match t with
  | WindPower => "Electricity from wind - TWh"
  | SolarPower => "Electricity from solar - TWh"
  | HydroPower => "Electricity from hydro - TWh"
  | OtherRenewables => "Other renewables including bioenergy - TWh"
  end.

(** [list(energy_types.values())], in the dict's insertion order. *)
Definition energy_types_values : list EnergyType :=
  [WindPower; SolarPower; HydroPower; OtherRenewables].

Section Table.
Context {V : Type} `{Quantity V}.

(** One row of the frame [load_data] returns. *)
Record EnergyRecord : Type := {
  Entity : string;
  Year : Z;
  Wind : V;
  Hydro : V;
  Solar : V;
  Other : V
}.

(** One row of [energy_data] once the ISO_A3 column has been added
    ([None] is the missing value the resolver leaves). *)
Record Row : Type := {
  record :> EnergyRecord;
  ISO_A3 : option string
}.

Definition column (t : EnergyType) (r : Row) : V :=
  match t with
  | WindPower => Wind r
  | SolarPower => Solar r
  | HydroPower => Hydro r
  | OtherRenewables => Other r
  end.

(** *** Row filters (boolean masks) *)

(** [data[data['Year'] == year]] *)
Definition filterByYear (rows : list Row) (year : Z) : list Row :=
  filter (fun r : Row => Year r =? year) rows.

(** [data[(data['Year'] >= a) & (data['Year'] <= b)]] *)
Definition filterByYearRange (rows : list Row) (a b : Z) : list Row :=
  filter (fun r : Row => (a <=? Year r) && (Year r <=? b)) rows.

(** [data[data['Year'] <= year]] *)
Definition filterUpToYear (rows : list Row) (year : Z) : list Row :=
  filter (fun r : Row => Year r <=? year) rows.

(** [data[data['Entity'].isin(entities)]] *)
Definition filterByEntities (rows : list Row) (entities : list string) : list Row :=
  filter (fun r : Row => isin (Entity r) entities) rows.

(** The three masks as the callbacks write them. *)
Definition energy_types_filtered (energy_data : list Row) (selected_year : Z)
           (selected_entities : list string) : list Row :=
  filter (fun r : Row => (Year r =? selected_year) && isin (Entity r) selected_entities)
         energy_data.

Definition energy_types_cumulative (energy_data : list Row) (selected_year : Z)
           (selected_entities : list string) : list Row :=
  filter (fun r : Row => (Year r <=? selected_year) && isin (Entity r) selected_entities)
         energy_data.

Definition search_filtered (energy_data : list Row) (lo hi : Z)
           (regions : list string) : list Row :=
  filter (fun r : Row => (lo <=? Year r) && (Year r <=? hi) && isin (Entity r) regions)
         energy_data.

(** *** Aggregation *)

(** The four energy columns of an aggregated row, in the order of
    [energy_types_values]. *)
Record Totals : Type := {
  tWind : V;
  tSolar : V;
  tHydro : V;
  tOther : V
}.

Definition total (t : EnergyType) (x : Totals) : V :=
  match t with
  | WindPower => tWind x
  | SolarPower => tSolar x
  | HydroPower => tHydro x
  | OtherRenewables => tOther x
  end.

Definition totals_zero : Totals :=
  {| tWind := qzero; tSolar := qzero; tHydro := qzero; tOther := qzero |}.

Definition totals_add (a b : Totals) : Totals :=
  {| tWind := qadd (tWind a) (tWind b);
     tSolar := qadd (tSolar a) (tSolar b);
     tHydro := qadd (tHydro a) (tHydro b);
     tOther := qadd (tOther a) (tOther b) |}.

(** [rows[list(energy_types.values())].sum()] *)
Definition sum_columns (rows : list Row) : Totals :=
  {| tWind := qsum (map (column WindPower) rows);
     tSolar := qsum (map (column SolarPower) rows);
     tHydro := qsum (map (column HydroPower) rows);
     tOther := qsum (map (column OtherRenewables) rows) |}.

(** A frame or series whose index holds the group keys. *)
Record Indexed (I X : Type) : Type := MkIndexed { index_rows : list (I * X) }.
Arguments MkIndexed {I X} _.
Arguments index_rows {I X} _.

(** [.reset_index()]: the index becomes the first column. *)
Definition reset_index {I X : Type} (df : Indexed I X) : list (I * X) :=
  index_rows df.

(** [data.groupby('Year')]: the groups, by ascending year. *)
Definition groupby_Year (data : list Row) : list (Z * list Row) :=
  map (fun y => (y, filterByYear data y))
      (unique_keys Z.eq_dec Z.leb (map (fun r : Row => Year r) data)).

(** [data.groupby('Year')[list(energy_types.values())].sum()] *)
Definition groupby_Year_sum (data : list Row) : Indexed Z Totals :=
  MkIndexed (map (fun g => (fst g, sum_columns (snd g))) (groupby_Year data)).

(** [data.groupby('Year')[energy_type].sum()] *)
Definition groupby_Year_sum_of (energy_type : EnergyType) (data : list Row)
  : Indexed Z V :=
  MkIndexed (map (fun g => (fst g, qsum (map (column energy_type) (snd g))))
                 (groupby_Year data)).

(** [DataFrame.cumsum()] on a frame indexed by year: every column
    accumulates, the index is kept. *)
Fixpoint cumsum_rows_from (acc : Totals) (l : list (Z * Totals))
  : list (Z * Totals) :=
  match l with
  | [] => []
  | (y, t) :: rest =>
      (y, totals_add acc t) :: cumsum_rows_from (totals_add acc t) rest
  end.

Definition cumsum_indexed (df : Indexed Z Totals) : Indexed Z Totals :=
  MkIndexed (cumsum_rows_from totals_zero (index_rows df)).

(** [DataFrame.cumsum()] on a frame whose columns are Year and one energy
    column: both columns accumulate. *)
Fixpoint cumsum_columns_from (accy : Z) (accv : V) (l : list (Z * V))
  : list (Z * V) :=
  match l with
  | [] => []
  | (y, v) :: rest =>
      (accy + y, qadd accv v) :: cumsum_columns_from (accy + y) (qadd accv v) rest
  end.

Definition cumsum_columns (df : list (Z * V)) : list (Z * V) :=
  cumsum_columns_from 0 qzero df.

(** The [area_data] of [create_energy_area_fig]: one row per year, each
    energy column summed; a running sum when [cumulative]. *)
Definition sumByYear (rows : list Row) (cumulative : bool) : list (Z * Totals) :=
  if cumulative
  then reset_index (cumsum_indexed (groupby_Year_sum rows))
  else reset_index (groupby_Year_sum rows).

(** The [area_data] of [update_search_section]:
    [filtered_df.groupby('Year')[energy_type].sum().reset_index().cumsum()] *)
Definition search_area_data (filtered_df : list Row) (energy_type : EnergyType)
  : list (Z * V) :=
  cumsum_columns (reset_index (groupby_Year_sum_of energy_type filtered_df)).

(** [data.groupby('Entity')[list(energy_types.values())].sum().reset_index()] *)
Definition sumByEntityAndEnergyType (data : list Row) : list (string * Totals) :=
  map (fun e => (e, sum_columns (filter (fun r : Row => String.eqb (Entity r) e) data)))
      (unique_keys string_dec String.leb (map (fun r : Row => Entity r) data)).

(** [pie_data[list(energy_types.values())].sum().reset_index()] *)
Definition pie_sum (pie_data : list (string * Totals)) : list (string * V) :=
  map (fun t => (column_name t, qsum (map (fun g => total t (snd g)) pie_data)))
      energy_types_values.

(** [data['Year'].max()]; [None] is the NaN of an empty column. *)
Definition year_max (data : list Row) : option Z :=
  match data with
  | [] => None
  | r :: rest => Some (fold_left Z.max (map (fun x : Row => Year x) rest) (Year r))
  end.

Definition pair_eq_dec (a b : string * string) : {a = b} + {a <> b}.
Proof. decide equality; apply string_dec. Defined.

Definition pair_leb (a b : string * string) : bool :=
  match String.compare (fst a) (fst b) with
  | Lt => true
  | Eq => String.leb (snd a) (snd b)
  | Gt => false
  end.

(** The group key of [groupby(['Entity', 'ISO_A3'])]; rows whose key has a
    missing part belong to no group (pandas' [dropna=True]). *)
Definition entity_iso_key (r : Row) : option (string * string) :=
  match ISO_A3 r with
  | Some c => Some (Entity r, c)
  | None => None
  end.

Definition key_is (k : string * string) (r : Row) : bool :=
  match entity_iso_key r with
  | Some k' => if pair_eq_dec k' k then true else false
  | None => false
  end.

Fixpoint present_keys (rows : list Row) : list (string * string) :=
  match rows with
  | [] => []
  | r :: rest =>
      match entity_iso_key r with
      | Some k => k :: present_keys rest
      | None => present_keys rest
      end
  end.

(** [map_data.groupby(['Entity','ISO_A3'], as_index=False).agg({energy_type: 'sum'})] *)
Definition groupby_Entity_ISO_sum (map_data : list Row) (energy_type : EnergyType)
  : list (string * string * V) :=
  map (fun k => (k, qsum (map (column energy_type) (filter (key_is k) map_data))))
      (unique_keys pair_eq_dec pair_leb (present_keys map_data)).

(** The [map_data] of [create_worldwide_map]. *)
Definition latestYearByEntity (rows : list Row) (energy_type : EnergyType)
  : list (string * string * V) :=
  let map_data :=
    match year_max rows with
    | Some latest_year => filterByYear rows latest_year
    | None => []
    end in
  groupby_Entity_ISO_sum map_data energy_type.

End Table.
Arguments EnergyRecord V : clear implicits.
Arguments Row V : clear implicits.
Arguments Totals V : clear implicits.
Arguments MkIndexed {I X} _.
Arguments index_rows {I X} _.

(* ================================================================== *)
(** ** Geo-code resolver and the working dataset *)
(* ================================================================== *)

Section Resolver.
Context {V : Type}.

(** The country database behind [pycountry.countries.lookup]: the alpha-3
    code of the record a name matches, if any. *)
Variable countries_db : string -> option string.

(** [pycountry.countries.lookup(value).alpha_3]; the lookup raises
    [LookupError] when no record matches. *)
Definition countries_lookup_alpha_3 (value : string) : result string :=
  match countries_db value with
  | Some code => Ok code
  | None => Err (LookupError ("Could not find a record for " ++ value))
  end.

Definition get_iso_alpha3 (entity_name : string) : result (option string) :=
  try_except
    (code <- countries_lookup_alpha_3 entity_name ;; Ok (Some code))
    (fun e => if is_LookupError e then Ok None else Err e).

(** [energy_data['ISO_A3'] = energy_data['Entity'].apply(get_iso_alpha3)] *)
Definition add_ISO_A3 (energy_data : list (EnergyRecord V)) : result (list (Row V)) :=
  mapM (fun r => code <- get_iso_alpha3 (Entity r) ;;
                 Ok {| record := r; ISO_A3 := code |})
       energy_data.

(** [energy_data.dropna(subset=['ISO_A3'])] *)
Definition dropna_ISO_A3 (energy_data : list (Row V)) : list (Row V) :=
  filter (fun r => match ISO_A3 r with Some _ => true | None => false end)
         energy_data.

(** The module-level [energy_data] every callback closes over. *)
Definition working_dataset (loaded : list (EnergyRecord V)) : result (list (Row V)) :=
  with_iso <- add_ISO_A3 loaded ;; Ok (dropna_ISO_A3 with_iso).
End Resolver.

(* ================================================================== *)
(** ** Chart builders and callbacks *)
(* ================================================================== *)

Section Charts.
Context {V : Type} `{Quantity V}.

(** A figure is kept as the table plotly receives and its title. *)
Inductive Figure : Type :=
| EmptyFigure (title : string)
| LineFigure (data : list (Row V)) (y : EnergyType) (title : string)
| BarFigure (data : list (Row V)) (y : list EnergyType) (title : string)
| PieFigure (slices : list (string * V)) (title : string)
| AreaFigure (area_data : list (Z * Totals V)) (title y_label : string)
| AreaFigureOf (area_data : list (Z * V)) (y : EnergyType) (title : string)
| ChoroplethFigure (map_data : list (string * string * V)) (color : EnergyType)
                   (title : string).

Definition create_energy_bar_fig (data : list (Row V)) : Figure :=
  BarFigure data energy_types_values
            "Energy Consumption by Entity and Energy Type".

Definition create_energy_pie_fig (data : list (Row V)) (year : Z) : Figure :=
  let pie_data := sumByEntityAndEnergyType data in
  PieFigure (pie_sum pie_data)
            ("Energy Consumption Distribution in " ++ str_of_Z year).

Definition create_energy_area_fig (data : list (Row V)) (cumulative : bool) : Figure :=
  if cumulative
  then AreaFigure (sumByYear data true)
                  "Cumulative Energy Consumption Over Years"
                  "Cumulative Electricity Consumption (TWh)"
  else AreaFigure (sumByYear data false)
                  "Annual Energy Consumption Over Years"
                  "Electricity Consumption (TWh)".

Definition create_worldwide_map (data : list (Row V)) (energy_type : EnergyType)
  : Figure :=
  let latest_year :=
    match year_max data with Some y => str_of_Z y | None => "nan"%string end in
  ChoroplethFigure (latestYearByEntity data energy_type) energy_type
    ("Global " ++ column_name energy_type ++ " Consumption in " ++ latest_year).

(** What a dash callback does: return its outputs, raise [PreventUpdate],
    or raise an exception. *)
Inductive CallbackResult (A : Type) : Type :=
| Return (outputs : A)
| PreventUpdate
| Raise (e : exn).
Arguments Return {A} outputs.
Arguments PreventUpdate {A}.
Arguments Raise {A} e.

(** dash leaves an output as it is when its callback raises
    [PreventUpdate] (or fails), and replaces it otherwise. *)
Definition render {A : Type} (shown : A) (r : CallbackResult A) : A :=
  match r with
  | Return outputs => outputs
  | PreventUpdate => shown
  | Raise _ => shown
  end.

(** Python's [not x] for a multi-select value: [None] and [[]] are falsy. *)
Definition not_ (selection : option (list string)) : bool :=
  match selection with
  | None | Some [] => true
  | Some (_ :: _) => false
  end.

Definition selected (selection : option (list string)) : list string :=
  match selection with Some l => l | None => [] end.

(** [df.empty] *)
Definition empty {A : Type} (df : list A) : bool :=
  match df with [] => true | _ :: _ => false end.

Definition update_worldwide_map (energy_data : list (Row V))
           (selected_energy_type : option EnergyType) : CallbackResult Figure :=
  match selected_energy_type with
  | None => PreventUpdate
  | Some energy_type => Return (create_worldwide_map energy_data energy_type)
  end.

Definition update_energy_types (energy_data : list (Row V))
           (selected_year : option Z) (selected_entities : option (list string))
  : CallbackResult (Figure * Figure * Figure) :=
  match selected_year with
  | None =>
      let empty_fig := EmptyFigure
        "Please select a year and at least one entity to display the data." in
      Return (empty_fig, empty_fig, empty_fig)
  | Some year =>
      if not_ selected_entities then
        let empty_fig := EmptyFigure
          "Please select a year and at least one entity to display the data." in
        Return (empty_fig, empty_fig, empty_fig)
      else
        let filtered_df :=
          energy_types_filtered energy_data year (selected selected_entities) in
        if empty filtered_df then
          let empty_fig := EmptyFigure
            "No data available for the selected year and entities." in
          Return (empty_fig, empty_fig, empty_fig)
        else
          let pie_fig := create_energy_pie_fig filtered_df year in
          let cumulative_data :=
            energy_types_cumulative energy_data year (selected selected_entities) in
          let area_fig := create_energy_area_fig cumulative_data true in
          let bar_fig := create_energy_bar_fig filtered_df in
          Return (pie_fig, area_fig, bar_fig)
  end.

(** [filtered_df.groupby('Entity')[energy_type].sum().reset_index()] *)
Definition search_pie_data (filtered_df : list (Row V)) (energy_type : EnergyType)
  : list (string * V) :=
  map (fun e => (e, qsum (map (column energy_type)
                              (filter (fun r : Row V => String.eqb (Entity r) e)
                                      filtered_df))))
      (unique_keys string_dec String.leb
                   (map (fun r : Row V => Entity r) filtered_df)).

(** [year_range[i]] *)
Definition getitem (year_range : list Z) (i : nat) : result Z :=
  match nth_error year_range i with
  | Some y => Ok y
  | None => Err (IndexError "list index out of range")
  end.

Definition update_search_section (energy_data : list (Row V))
           (year_range : list Z) (regions : option (list string))
           (energy_type : option EnergyType)
  : CallbackResult (Figure * Figure * Figure * Figure) :=
  let empty_selection :=
    let empty_fig := EmptyFigure
      "Please select at least one region and an energy type to display the data." in
    Return (empty_fig, empty_fig, empty_fig, empty_fig) in
  if not_ regions then empty_selection
  else
    match energy_type with
    | None => empty_selection
    | Some energy_type =>
        match getitem year_range 0, getitem year_range 1 with
        | Err e, _ => Raise e
        | Ok _, Err e => Raise e
        | Ok lo, Ok hi =>
            let filtered_df := search_filtered energy_data lo hi (selected regions) in
            if empty filtered_df then
              let empty_fig := EmptyFigure
                "No data available for the selected filters." in
              Return (empty_fig, empty_fig, empty_fig, empty_fig)
            else
              let name := column_name energy_type in
              let line_fig :=
                LineFigure filtered_df energy_type (name ++ " Consumption Trends") in
              let bar_fig :=
                BarFigure filtered_df [energy_type]
                          ("Energy Consumption by Region for " ++ name) in
              let pie_fig :=
                PieFigure (search_pie_data filtered_df energy_type)
                          ("Energy Consumption Distribution for " ++ name) in
              let area_fig :=
                AreaFigureOf (search_area_data filtered_df energy_type) energy_type
                             ("Cumulative " ++ name ++ " Consumption Over Years") in
              Return (line_fig, bar_fig, pie_fig, area_fig)
        end
    end.
End Charts.
Arguments Figure V : clear implicits.
Arguments Return {A} outputs.
Arguments PreventUpdate {A}.
Arguments Raise {A} e.

(* ================================================================== *)
(** ** Data loader *)
(* ================================================================== *)

Section Loader.
Context {V : Type} `{Quantity V}.

(** A cell of a pandas column: missing, an integer, a float or a Python
    string. *)
Inductive cell : Type :=
| NaN
| IntCell (z : Z)
| FloatCell (v : V)
| StrCell (s : string).

(** A frame as its labelled columns, left to right. *)
Definition DataFrame : Type := list (string * list cell).

Definition labels (df : DataFrame) : list string := map fst df.

Definition has_column (label : string) (df : DataFrame) : bool :=
  isin label (labels df).

Definition labelled (label : string) (c : string * list cell) : bool :=
  String.eqb (fst c) label.

(** The parts of Python and pandas the loader relies on. *)
Variable float_to_int : V -> Z.
Variable float_repr : V -> string.
Variable py_int : string -> option Z.
Variable file_system : string -> option string.
Variable parse_csv : string -> result DataFrame.

(** [pd.read_csv(filepath)] *)
Definition read_csv (filepath : string) : result DataFrame :=
  match file_system filepath with
  | None => Err (FileNotFoundError ("No such file or directory: " ++ filepath))
  | Some text => parse_csv text
  end.

(** [df.drop(columns=label)] *)
Definition drop (label : string) (df : DataFrame) : result DataFrame :=
  if has_column label df
  then Ok (filter (fun c => negb (String.eqb (fst c) label)) df)
  else Err (KeyError (label ++ " not found in axis")).

(** [df[label]] *)
Definition get_column (label : string) (df : DataFrame) : result (list cell) :=
  match find (fun c => String.eqb (fst c) label) df with
  | Some c => Ok (snd c)
  | None => Err (KeyError label)
  end.

(** [df[label] = cells] for a label the frame has. *)
Definition set_column (label : string) (cells : list cell) (df : DataFrame)
  : DataFrame :=
  map (fun c => if String.eqb (fst c) label then (fst c, cells) else c) df.

Definition energy_columns : list string :=
  [ "Electricity from wind - TWh";
    "Electricity from hydro - TWh";
    "Electricity from solar - TWh";
    "Other renewables including bioenergy - TWh" ]%string.

(** [.fillna(0)] on one cell *)
Definition fillna0 (c : cell) : cell :=
  match c with
  | NaN => FloatCell qzero
  | _ => c
  end.

(** [df[cols] = df[cols].fillna(0)] *)
Definition fillna_columns (cols : list string) (df : DataFrame) : result DataFrame :=
  match find (fun l => negb (has_column l df)) cols with
  | Some l => Err (KeyError (l ++ " not in index"))
  | None =>
      Ok (map (fun c => if isin (fst c) cols then (fst c, map fillna0 (snd c)) else c)
              df)
  end.

(** [.astype(int)] on one cell *)
Definition astype_int (c : cell) : result cell :=
  match c with
  | NaN => Err (ValueError "cannot convert NaN to integer")
  | IntCell z => Ok (IntCell z)
  | FloatCell v => Ok (IntCell (float_to_int v))
  | StrCell s =>
      match py_int s with
      | Some z => Ok (IntCell z)
      | None => Err (ValueError ("invalid literal for int() with base 10: " ++ s))
      end
  end.

(** [.astype(str)] on one cell *)
Definition astype_str (c : cell) : cell :=
  match c with
  | NaN => StrCell "nan"
  | IntCell z => StrCell (str_of_Z z)
  | FloatCell v => StrCell (float_repr v)
  | StrCell s => StrCell s
  end.

(** The body of the [try] block. *)
Definition load_data_body (filepath : string) : result DataFrame :=
  df <- read_csv filepath ;;
  df <- drop "Code" df ;;
  df <- fillna_columns energy_columns df ;;
  years <- get_column "Year" df ;;
  years <- mapM astype_int years ;;
  let df := set_column "Year" years df in
  entities <- get_column "Entity" df ;;
  let df := set_column "Entity" (map astype_str entities) df in
  Ok df.

(** The three [except] clauses, in order. *)
Definition load_data_handler (e : exn) : result DataFrame :=
  match e with
  | FileNotFoundError _ =>
      Err (FileNotFoundError
             "The data file 'modern-renewable-prod.csv' was not found.")
  | ParserError _ =>
      Err (ValueError "Error parsing the CSV file. Please check the file format.")
  | _ => Err e
  end.

Definition load_data (filepath : string) : result DataFrame :=
  try_except (load_data_body filepath) load_data_handler.

(** The module-level [try ... except Exception ... else]: the alert that
    shows the exception, or the dashboard over the loaded data. *)
Inductive Layout : Type :=
| ErrorAlert (e : exn)
| Dashboard (energy_data : DataFrame).

Definition app_layout : Layout :=
  match load_data "modern-renewable-prod.csv" with
  | Err e => ErrorAlert e
  | Ok energy_data => Dashboard energy_data
  end.

(** Cell predicates for the post-conditions. *)
Definition is_missing (c : cell) : bool :=
  match c with NaN => true | _ => false end.

Definition is_int (c : cell) : bool :=
  match c with IntCell _ => true | _ => false end.

Definition is_str (c : cell) : bool :=
  match c with StrCell _ => true | _ => false end.
End Loader.
Arguments cell V : clear implicits.
Arguments DataFrame V : clear implicits.
Arguments Layout V : clear implicits.

(* ================================================================== *)
(** ** Reading aggregated tables, and a sample dataset *)
(* ================================================================== *)

Section Reading.
Context {V : Type} `{Quantity V}.

(** The row of a table at year [Y], if it has one. *)
Definition at_year {X : Type} (Y : Z) (table : list (Z * X)) : option X :=
  option_map snd (find (fun p => fst p =? Y) table).

Definition totals_sum (l : list (Totals V)) : Totals V :=
  fold_right totals_add totals_zero l.

(** The rows of a table with year at most [Y], added up. *)
Definition sum_up_to (Y : Z) (table : list (Z * Totals V)) : Totals V :=
  totals_sum (map snd (filter (fun p => fst p <=? Y) table)).

Definition has_year (Y : Z) (rows : list (Row V)) : bool :=
  existsb (fun r : Row V => Year r =? Y) rows.
End Reading.

Definition sample_row (entity : string) (year wind solar hydro other : Z)
           (iso : option string) : Row Z :=
  {| record := {| Entity := entity; Year := year; Wind := wind; Hydro := hydro;
                  Solar := solar; Other := other |};
     ISO_A3 := iso |}.

Definition tunisia_rows : list (Row Z) :=
  [ sample_row "Tunisia" 2020 1 2 0 0 (Some "TUN"%string);
    sample_row "Tunisia" 2021 3 0 0 0 (Some "TUN"%string) ].

(** A sample country database, loaded table and CSV frame. *)
Definition sample_db (name : string) : option string :=
  if String.eqb name "Tunisia" then Some "TUN"%string else None.

Definition sample_loaded : list (EnergyRecord Z) :=
  [ {| Entity := "Tunisia"; Year := 2020; Wind := 1; Hydro := 0; Solar := 2; Other := 0 |};
    {| Entity := "World"; Year := 2020; Wind := 9; Hydro := 9; Solar := 9; Other := 9 |} ].

Definition sample_frame : DataFrame Z :=
  [ ("Entity", [StrCell "Tunisia"; StrCell "Tunisia"]);
    ("Code", [StrCell "TUN"; StrCell "TUN"]);
    ("Year", [IntCell 2020; IntCell 2021]);
    ("Electricity from wind - TWh", [FloatCell 1; NaN]);
    ("Electricity from hydro - TWh", [NaN; NaN]);
    ("Electricity from solar - TWh", [FloatCell 2; FloatCell 0]);
    ("Other renewables including bioenergy - TWh", [NaN; FloatCell 0]) ]%string.

Definition sample_file_system (path : string) : option string :=
  if String.eqb path "modern-renewable-prod.csv"
  then Some "Entity,Code,Year,..."%string
  else None.

Definition sample_parse_csv (text : string) : result (DataFrame Z) :=
  Ok sample_frame.

Definition sample_load_data : string -> result (DataFrame Z) :=
  load_data (fun v : Z => v) str_of_Z (fun _ => None)
            sample_file_system sample_parse_csv.

(** The titles of the placeholder figures. *)
Definition select_year_and_entity : string :=
  "Please select a year and at least one entity to display the data.".

Definition no_data_year_entities : string :=
  "No data available for the selected year and entities.".

Definition select_region_and_type : string :=
  "Please select at least one region and an energy type to display the data.".

Definition no_data_filters : string :=
  "No data available for the selected filters.".

(* ================================================================== *)
(** ** Dropdown data and section layout *)
(* ================================================================== *)

Section Startup.
Context {V : Type}.

(** [sorted(energy_data['Entity'].unique())], computed on the loaded frame
    before the ISO_A3 column is added. *)
Definition energy_entities (energy_data : list (EnergyRecord V)) : list string :=
  unique_keys string_dec String.leb (map (fun r : EnergyRecord V => Entity r) energy_data).

(** [energy_data['Year'].min()]; [None] is the NaN of an empty column. *)
Definition energy_year_min (energy_data : list (EnergyRecord V)) : option Z :=
  match energy_data with
  | [] => None
  | r :: rest =>
      Some (fold_left Z.min (map (fun x : EnergyRecord V => Year x) rest) (Year r))
  end.

(** [energy_data['Year'].max()] *)
Definition energy_year_max (energy_data : list (EnergyRecord V)) : option Z :=
  match energy_data with
  | [] => None
  | r :: rest =>
      Some (fold_left Z.max (map (fun x : EnergyRecord V => Year x) rest) (Year r))
  end.

(** [range(start, stop)] *)
Definition range (start stop : Z) : list Z :=
  map (fun i => start + Z.of_nat i) (seq 0 (Z.to_nat (stop - start))).

(** What the module keeps for the widgets. *)
Record Precomputed : Type := {
  entities : list string;
  year_min : Z;
  year_max_ : Z;
  year_marks : list (Z * string)
}.

(** Lines 78 to 81:
    [energy_year_marks = {year: str(year) for year in
                          range(energy_year_min, energy_year_max + 1, 1)}];
    [range] rejects the NaN an empty Year column gives. *)
Definition precompute (energy_data : list (EnergyRecord V)) : result Precomputed :=
  let energy_entities := energy_entities energy_data in
  match energy_year_min energy_data, energy_year_max energy_data with
  | Some lo, Some hi =>
      Ok {| entities := energy_entities;
            year_min := lo;
            year_max_ := hi;
            year_marks := map (fun year => (year, str_of_Z year)) (range lo (hi + 1)) |}
  | _, _ =>
      Err (OtherException "TypeError"
                          "'float' object cannot be interpreted as an integer")
  end.

(** The dict [energy_types]: dropdown label and energy column. *)
Definition energy_types : list (string * EnergyType) :=
  [ ("Wind Power"%string, WindPower);
    ("Solar Power"%string, SolarPower);
    ("Hydro Power"%string, HydroPower);
    ("Other Renewables"%string, OtherRenewables) ].

(** What [render_content] puts in the content area: the prompt, one of the
    three sections with the options and initial values of its widgets, or
    nothing ([None]) when the function falls off its end. *)
Inductive Content : Type :=
| SelectSectionPrompt
| WorldwideSection (energy_type_options : list (string * EnergyType))
                   (energy_type_value : EnergyType)
| EnergyTypesSection (year_options : list Z) (year_value : Z)
                     (entity_options : list string) (entity_value : list string)
| SearchSection (slider_min slider_max : Z) (slider_value : list Z)
                (slider_marks : list (Z * string))
                (region_options : list string) (region_value : list string)
                (energy_type_options : list (string * EnergyType))
                (energy_type_value : EnergyType)
| NoContent.

(** [prop_id.split('.')[0]] *)
Fixpoint before_dot (prop_id : string) : string :=
  match prop_id with
  | EmptyString => EmptyString
  | String c rest => if Ascii.eqb c "." then EmptyString else String c (before_dot rest)
  end.

(** [ctx.triggered] is given as the list of its [prop_id]s; it is falsy when
    empty. *)
Definition render_content (pre : Precomputed)
           (btn_worldwide btn_energy_types btn_search : Z)
           (triggered : list string) : Content :=
  match triggered with
  | [] => SelectSectionPrompt
  | prop_id :: _ =>
      let button_id := before_dot prop_id in
      if String.eqb button_id "btn-worldwide" then
        WorldwideSection energy_types WindPower
      else if String.eqb button_id "btn-energy-types" then
        EnergyTypesSection (range (year_min pre) (year_max_ pre + 1)) (year_max_ pre)
                           (entities pre) ["Tunisia"%string]
      else if String.eqb button_id "btn-search" then
        SearchSection (year_min pre) (year_max_ pre)
                      [year_min pre; year_max_ pre] (year_marks pre)
                      (entities pre) ["Tunisia"%string]
                      energy_types WindPower
      else NoContent
  end.
End Startup.

(** The columns [load_data] reads by name. *)
Definition required_columns : list string :=
  ("Code" :: "Year" :: "Entity" :: energy_columns)%string.

(** Sample frames the loader rejects: one without the Code column, one with
    a missing Year cell. *)
Definition sample_frame_no_code : DataFrame Z :=
  filter (fun c => negb (String.eqb (fst c) "Code")) sample_frame.

Definition sample_frame_bad_year : DataFrame Z :=
  set_column "Year" [IntCell 2020; NaN] sample_frame.

Definition sample_load_from (frame : DataFrame Z) : string -> result (DataFrame Z) :=
  load_data (fun v : Z => v) str_of_Z (fun _ => None)
            sample_file_system (fun _ => Ok frame).

(* ================================================================== *)
(** * Properties *)
(* ================================================================== *)

(** ** Sums *)

Section SumFacts.
Context {V : Type} `{Quantity V}.

Lemma qadd_0_r (a : V) : qadd a qzero = a.
Proof. rewrite qadd_comm. apply qadd_0_l. Qed.

Lemma qadd_swap (a b c : V) : qadd a (qadd b c) = qadd b (qadd a c).
Proof. rewrite !qadd_assoc. f_equal. apply qadd_comm. Qed.

(** Two masks that never hold together split the sum over their union. *)
Lemma qsum_filter_split {A : Type} (f : A -> V) (p q : A -> bool) (l : list A) :
  (forall x, In x l -> p x = true -> q x = true -> False) ->
  qsum (map f (filter (fun x => p x || q x) l))
  = qadd (qsum (map f (filter p l))) (qsum (map f (filter q l))).
Proof.
  induction l as [|x l IH]; intros Hdisj; simpl.
  - symmetry. apply qadd_0_l.
  - assert (IH' := IH (fun y Hy => Hdisj y (or_intror Hy))).
    destruct (p x) eqn:Hp; destruct (q x) eqn:Hq; simpl.
    + exfalso. apply (Hdisj x); auto. now left.
    + rewrite IH'. apply qadd_assoc.
    + rewrite IH'. apply qadd_swap.
    + exact IH'.
Qed.

Lemma filter_all {A : Type} (p : A -> bool) (l : list A) :
  (forall x, In x l -> p x = true) -> filter p l = l.
Proof.
  induction l as [|x l IH]; intros Hall; simpl; [reflexivity|].
  rewrite (Hall x (or_introl eq_refl)). f_equal.
  apply IH. intros y Hy. apply Hall. now right.
Qed.

Lemma filter_none {A : Type} (p : A -> bool) (l : list A) :
  (forall x, In x l -> p x = false) -> filter p l = [].
Proof.
  induction l as [|x l IH]; intros Hnone; simpl; [reflexivity|].
  rewrite (Hnone x (or_introl eq_refl)).
  apply IH. intros y Hy. apply Hnone. now right.
Qed.

(** Summing every group and then the group sums is summing the rows that
    fall in some group, provided no row falls in two. *)
Lemma qsum_groups {A K : Type} (f : A -> V) (sel : K -> A -> bool)
      (ks : list K) (data : list A) :
  (forall k1 k2 x, sel k1 x = true -> sel k2 x = true -> k1 = k2) ->
  NoDup ks ->
  qsum (map (fun k => qsum (map f (filter (sel k) data))) ks)
  = qsum (map f (filter (fun x => existsb (fun k => sel k x) ks) data)).
Proof.
  intros Hone Hnd. induction Hnd as [|k ks Hnotin Hnd IH]; simpl.
  - rewrite filter_none; [reflexivity | auto].
  - rewrite IH.
    rewrite (qsum_filter_split f (sel k) (fun x => existsb (fun k' => sel k' x) ks)).
    + reflexivity.
    + intros x _ Hk Hex. apply existsb_exists in Hex.
      destruct Hex as [k' [Hin Hk']].
      apply Hnotin. now rewrite (Hone k k' x Hk Hk').
Qed.

Lemma qsum_groups_total {A K : Type} (f : A -> V) (sel : K -> A -> bool)
      (ks : list K) (data : list A) :
  (forall k1 k2 x, sel k1 x = true -> sel k2 x = true -> k1 = k2) ->
  NoDup ks ->
  (forall x, In x data -> exists k, In k ks /\ sel k x = true) ->
  qsum (map (fun k => qsum (map f (filter (sel k) data))) ks) = qsum (map f data).
Proof.
  intros Hone Hnd Hcover. rewrite qsum_groups by assumption.
  rewrite filter_all; [reflexivity|].
  intros x Hx. apply existsb_exists. apply Hcover, Hx.
Qed.
End SumFacts.

(** ** Group keys *)

Section KeyFacts.
Context {K : Type} (K_eq_dec : forall a b : K, {a = b} + {a <> b})
        (leb : K -> K -> bool).

Lemma insert_sorted_perm (k : K) (ks : list K) :
  Permutation (k :: ks) (insert_sorted leb k ks).
Proof.
  induction ks as [|h t IH]; simpl; [reflexivity|].
  destruct (leb k h); [reflexivity|].
  rewrite perm_swap. now apply perm_skip.
Qed.

Lemma sort_keys_perm (ks : list K) : Permutation ks (sort_keys leb ks).
Proof.
  induction ks as [|k ks IH]; simpl; [reflexivity|].
  rewrite <- insert_sorted_perm. now apply perm_skip.
Qed.

Lemma unique_keys_In (k : K) (ks : list K) :
  In k (unique_keys K_eq_dec leb ks) <-> In k ks.
Proof.
  unfold unique_keys. rewrite <- (nodup_In K_eq_dec ks k).
  split; apply Permutation_in;
    [symmetry|]; apply sort_keys_perm.
Qed.

Lemma unique_keys_NoDup (ks : list K) : NoDup (unique_keys K_eq_dec leb ks).
Proof.
  unfold unique_keys.
  apply (Permutation_NoDup (sort_keys_perm _)), NoDup_nodup.
Qed.
End KeyFacts.

Lemma insert_sorted_le (k : Z) (ks : list Z) :
  StronglySorted Z.le ks -> StronglySorted Z.le (insert_sorted Z.leb k ks).
Proof.
  induction 1 as [|h t Hs IH Hall]; simpl.
  - repeat constructor.
  - destruct (Z.leb_spec k h) as [Hle|Hlt].
    + constructor; [now constructor|].
      constructor; [exact Hle|].
      rewrite Forall_forall in *. intros x Hx. specialize (Hall x Hx). lia.
    + constructor; [exact IH|].
      rewrite Forall_forall in *. intros x Hx.
      apply (Permutation_in _ (Permutation_sym (insert_sorted_perm Z.leb k t))) in Hx.
      destruct Hx as [<-|Hx]; [lia | now apply Hall].
Qed.

Lemma sort_keys_le (ks : list Z) : StronglySorted Z.le (sort_keys Z.leb ks).
Proof.
  induction ks as [|k ks IH]; simpl; [constructor | now apply insert_sorted_le].
Qed.

Lemma sorted_le_NoDup_lt (ks : list Z) :
  StronglySorted Z.le ks -> NoDup ks -> StronglySorted Z.lt ks.
Proof.
  induction 1 as [|h t Hs IH Hall]; intros Hnd; [constructor|].
  inversion Hnd as [|? ? Hnotin Hnd']; subst.
  constructor; [now apply IH|].
  rewrite Forall_forall in *. intros x Hx.
  assert (h <> x) by (intros ->; contradiction).
  specialize (Hall x Hx). lia.
Qed.

(** The years of a [groupby('Year')] come out strictly ascending. *)
Lemma unique_years_sorted (ks : list Z) :
  StronglySorted Z.lt (unique_keys Z.eq_dec Z.leb ks).
Proof.
  apply sorted_le_NoDup_lt; [apply sort_keys_le | apply unique_keys_NoDup].
Qed.

(** ** Filters *)

Section FilterFacts.
Context {V : Type}.

Lemma filter_filter {A : Type} (p q : A -> bool) (l : list A) :
  filter q (filter p l) = filter (fun x => p x && q x) l.
Proof.
  induction l as [|x l IH]; simpl; [reflexivity|].
  destruct (p x); simpl; [destruct (q x)|]; now rewrite IH.
Qed.

Lemma filter_split_perm {A : Type} (p : A -> bool) (l : list A) :
  Permutation l (filter p l ++ filter (fun x => negb (p x)) l).
Proof.
  induction l as [|x l IH]; simpl; [reflexivity|].
  destruct (p x); simpl.
  - now apply perm_skip.
  - now apply Permutation_cons_app.
Qed.

Lemma energy_types_filtered_eq (data : list (Row V)) (y : Z) (ents : list string) :
  energy_types_filtered data y ents = filterByEntities (filterByYear data y) ents.
Proof.
  unfold energy_types_filtered, filterByEntities, filterByYear.
  now rewrite filter_filter.
Qed.

Lemma energy_types_cumulative_eq (data : list (Row V)) (y : Z) (ents : list string) :
  energy_types_cumulative data y ents = filterByEntities (filterUpToYear data y) ents.
Proof.
  unfold energy_types_cumulative, filterByEntities, filterUpToYear.
  now rewrite filter_filter.
Qed.

Lemma search_filtered_eq (data : list (Row V)) (lo hi : Z) (regions : list string) :
  search_filtered data lo hi regions
  = filterByEntities (filterByYearRange data lo hi) regions.
Proof.
  unfold search_filtered, filterByEntities, filterByYearRange.
  now rewrite filter_filter.
Qed.

Lemma in_range_single (a y : Z) : (a <=? y) && (y <=? a) = (y =? a).
Proof.
  destruct (Z.leb_spec a y), (Z.leb_spec y a), (Z.eqb_spec y a); simpl;
    try reflexivity; lia.
Qed.
End FilterFacts.

(** C2. [filterByYearRange rows a b] keeps exactly the rows with
    [a <= Year <= b]: a row is in the result iff it is in the input with its
    year in the closed range, and the input is the result together with rows
    that are all out of range.  For [a = b] it is [filterByYear rows a].  The
    Search mask is this filter followed by the entity filter, and with a
    one-year range it selects what the Energy Types mask selects. *)
Theorem filterByYearRange_exact {V : Type} (rows : list (Row V)) (a b : Z) :
  (forall r, In r (filterByYearRange rows a b) <-> In r rows /\ a <= Year r <= b)
  /\ (exists rest, Permutation rows (filterByYearRange rows a b ++ rest)
                   /\ Forall (fun r : Row V => ~ (a <= Year r <= b)) rest)
  /\ filterByYearRange rows a a = filterByYear rows a
  /\ (forall regions, search_filtered rows a b regions
                      = filterByEntities (filterByYearRange rows a b) regions)
  /\ (forall regions, search_filtered rows a a regions
                      = energy_types_filtered rows a regions).
Proof.
  repeat apply conj.
  - intros r. unfold filterByYearRange. rewrite filter_In, andb_true_iff.
    rewrite !Z.leb_le. tauto.
  - exists (filter (fun r : Row V => negb ((a <=? Year r) && (Year r <=? b))) rows).
    split; [apply filter_split_perm|].
    apply Forall_forall. intros r Hr. apply filter_In in Hr.
    destruct Hr as [_ Hr]. apply negb_true_iff, andb_false_iff in Hr.
    destruct Hr as [Hr|Hr]; apply Z.leb_gt in Hr; lia.
  - unfold filterByYearRange, filterByYear. apply filter_ext.
    intros r. apply in_range_single.
  - intros regions. apply search_filtered_eq.
  - intros regions. unfold search_filtered, energy_types_filtered.
    apply filter_ext. intros r. now rewrite in_range_single.
Qed.

(** ** View callbacks *)

(** C9. With no energy type selected the Worldwide callback raises
    [PreventUpdate]: it returns no figure, placeholder or other, and the map
    that is shown stays as it is. *)
Theorem update_worldwide_map_none {V : Type} `{Quantity V}
        (energy_data : list (Row V)) (shown : Figure V) :
  update_worldwide_map energy_data None = PreventUpdate
  /\ (forall fig, update_worldwide_map energy_data None <> Return fig)
  /\ render shown (update_worldwide_map energy_data None) = shown.
Proof.
  repeat split. intros fig Hfig. discriminate Hfig.
Qed.

Lemma empty_true_iff {A : Type} (l : list A) : empty l = true <-> l = [].
Proof. destruct l; simpl; split; congruence. Qed.

(** C3 (as amended). In the Energy Types and Search views an empty selection
    and an empty filtered result give placeholder figures with an explanatory
    title; the Energy Types callback raises for no input at all, and the
    Search callback reaches its only raising step, the indexing of the year
    range, after the selection guard. *)
Theorem empty_states_are_placeholders {V : Type} `{Quantity V}
        (energy_data : list (Row V)) :
  (forall selected_year selected_entities,
      selected_year = None \/ not_ selected_entities = true ->
      update_energy_types energy_data selected_year selected_entities
      = Return (EmptyFigure select_year_and_entity,
                EmptyFigure select_year_and_entity,
                EmptyFigure select_year_and_entity))
  /\ (forall year selected_entities,
         not_ selected_entities = false ->
         energy_types_filtered energy_data year (selected selected_entities) = [] ->
         update_energy_types energy_data (Some year) selected_entities
         = Return (EmptyFigure no_data_year_entities,
                   EmptyFigure no_data_year_entities,
                   EmptyFigure no_data_year_entities))
  /\ (forall selected_year selected_entities e,
         update_energy_types energy_data selected_year selected_entities <> Raise e)
  /\ (forall year_range regions energy_type,
         not_ regions = true \/ energy_type = None ->
         update_search_section energy_data year_range regions energy_type
         = Return (EmptyFigure select_region_and_type,
                   EmptyFigure select_region_and_type,
                   EmptyFigure select_region_and_type,
                   EmptyFigure select_region_and_type))
  /\ (forall lo hi more regions energy_type,
         not_ regions = false ->
         search_filtered energy_data lo hi (selected regions) = [] ->
         update_search_section energy_data (lo :: hi :: more) regions
                               (Some energy_type)
         = Return (EmptyFigure no_data_filters,
                   EmptyFigure no_data_filters,
                   EmptyFigure no_data_filters,
                   EmptyFigure no_data_filters))
  /\ (forall year_range regions energy_type e,
         update_search_section energy_data year_range regions energy_type = Raise e ->
         (List.length year_range < 2)%nat /\ not_ regions = false /\ energy_type <> None).
Proof.
  repeat apply conj.
  - intros y ents [-> | Hents]; [reflexivity|].
    unfold update_energy_types. rewrite Hents. now destruct y.
  - intros y ents Hents Hempty.
    unfold update_energy_types. now rewrite Hents, Hempty.
  - intros y ents e. unfold update_energy_types.
    destruct y; [|discriminate].
    destruct (not_ ents); [discriminate|].
    destruct (empty _); discriminate.
  - intros yr regions et [Hreg | ->]; unfold update_search_section.
    + now rewrite Hreg.
    + now destruct (not_ regions).
  - intros lo hi more regions et Hreg Hempty.
    unfold update_search_section. rewrite Hreg. simpl. now rewrite Hempty.
  - intros yr regions et e. unfold update_search_section.
    destruct (not_ regions); [discriminate|].
    destruct et as [et|]; [|discriminate].
    destruct yr as [|lo [|hi more]]; simpl.
    + intros _. repeat split; [lia | discriminate].
    + intros _. repeat split; [lia | discriminate].
    + destruct (empty _); discriminate.
Qed.

(** Witness for C3: year 2021 with an empty entity list in the Energy Types
    view. *)
Lemma empty_states_are_placeholders_witness :
  update_energy_types tunisia_rows (Some 2021) (Some [])
  = Return (EmptyFigure select_year_and_entity,
            EmptyFigure select_year_and_entity,
            EmptyFigure select_year_and_entity).
Proof.
  apply (proj1 (empty_states_are_placeholders tunisia_rows)).
  right. reflexivity.
Defined.

(** C3 as stated fails in the Worldwide view: no energy type selected does
    not give a placeholder figure there, the callback raises
    [PreventUpdate]. *)
Lemma worldwide_none_is_no_placeholder :
  update_worldwide_map tunisia_rows None = PreventUpdate
  /\ ~ (exists title, update_worldwide_map tunisia_rows None
                      = Return (EmptyFigure title)).
Proof.
  split; [reflexivity|]. intros [title Htitle]. discriminate Htitle.
Qed.

(** ** Geo-code resolver *)

Section ResolverFacts.
Context {V : Type} `{Quantity V}.
Variable countries_db : string -> option string.

Lemma get_iso_alpha3_total (entity_name : string) :
  get_iso_alpha3 countries_db entity_name = Ok (countries_db entity_name).
Proof.
  unfold get_iso_alpha3, countries_lookup_alpha_3.
  now destruct (countries_db entity_name).
Qed.

Lemma add_ISO_A3_total (loaded : list (EnergyRecord V)) :
  add_ISO_A3 countries_db loaded
  = Ok (map (fun r => {| record := r; ISO_A3 := countries_db (Entity r) |}) loaded).
Proof.
  unfold add_ISO_A3. induction loaded as [|r rest IH]; simpl; [reflexivity|].
  rewrite get_iso_alpha3_total. simpl. now rewrite IH.
Qed.

Lemma working_dataset_total (loaded : list (EnergyRecord V)) :
  working_dataset countries_db loaded
  = Ok (dropna_ISO_A3
          (map (fun r => {| record := r; ISO_A3 := countries_db (Entity r) |})
               loaded)).
Proof. unfold working_dataset. now rewrite add_ISO_A3_total. Qed.

Lemma working_dataset_In (loaded : list (EnergyRecord V)) (r : Row V) :
  In r (dropna_ISO_A3
          (map (fun r => {| record := r; ISO_A3 := countries_db (Entity r) |})
               loaded))
  <-> In (record r) loaded
      /\ ISO_A3 r = countries_db (Entity r)
      /\ countries_db (Entity r) <> None.
Proof.
  unfold dropna_ISO_A3. rewrite filter_In, in_map_iff. split.
  - intros [[r0 [<- Hin]] Hiso]. simpl in *.
    repeat split; [assumption|].
    destruct (countries_db (Entity r0)); congruence.
  - intros [Hin [Hiso Hsome]]. split.
    + exists (record r). split; [|assumption].
      destruct r as [rec iso]. simpl in *. now subst iso.
    + rewrite Hiso. destruct (countries_db (Entity r)); congruence.
Qed.
End ResolverFacts.

Lemma present_keys_In {V : Type} (rows : list (Row V)) (k : string * string) :
  In k (present_keys rows) <-> exists r, In r rows /\ entity_iso_key r = Some k.
Proof.
  induction rows as [|r rest IH]; simpl.
  - split; [tauto | intros [r [[] _]]].
  - destruct (entity_iso_key r) as [k'|] eqn:Hk; simpl; rewrite IH; split.
    + intros [<- | [r' [Hin Hr']]]; [exists r | exists r']; auto.
    + intros [r' [[<- | Hin] Hr']]; [left; congruence | right; exists r'; auto].
    + intros [r' [Hin Hr']]. exists r'. auto.
    + intros [r' [[<- | Hin] Hr']]; [congruence | exists r'; auto].
Qed.

Lemma latestYearByEntity_keys {V : Type} `{Quantity V} (rows : list (Row V))
      (energy_type : EnergyType) (e c : string) (v : V) :
  In (e, c, v) (latestYearByEntity rows energy_type) ->
  exists r, In r rows /\ Entity r = e /\ ISO_A3 r = Some c.
Proof.
  unfold latestYearByEntity, groupby_Entity_ISO_sum. intros Hin.
  apply in_map_iff in Hin. destruct Hin as [k [Hk Hin]].
  apply unique_keys_In, present_keys_In in Hin.
  destruct Hin as [r [Hr Hkey]].
  exists r. inversion Hk; subst.
  unfold entity_iso_key in Hkey.
  destruct (ISO_A3 r) eqn:Hiso; [|discriminate].
  inversion Hkey; subst. repeat split.
  destruct (year_max rows); [|contradiction].
  unfold filterByYear in Hr. apply filter_In in Hr. tauto.
Qed.

(** C6. The resolver returns the code the lookup finds or the missing value
    and raises for no name.  The working dataset is the loaded rows whose
    entity resolved, each with its code; a row of an entity the lookup does
    not find is in no table a view computes from: not the table the map is
    built from nor the map's rows, not the Energy Types tables, not the
    Search table, whatever is selected. *)
Theorem unresolved_entities_leave_every_view {V : Type} `{Quantity V}
        (countries_db : string -> option string) (loaded : list (EnergyRecord V)) :
  (forall entity_name,
      get_iso_alpha3 countries_db entity_name = Ok (countries_db entity_name))
  /\ exists energy_data,
      working_dataset countries_db loaded = Ok energy_data
      /\ (forall r, In r energy_data
                    <-> In (record r) loaded
                        /\ ISO_A3 r = countries_db (Entity r)
                        /\ countries_db (Entity r) <> None)
      /\ forall entity_name,
          countries_db entity_name = None ->
          (forall r, In r energy_data -> Entity r <> entity_name)
          /\ (forall energy_type c v,
                 ~ In (entity_name, c, v) (latestYearByEntity energy_data energy_type))
          /\ (forall year entities r,
                 In r (energy_types_filtered energy_data year entities)
                 \/ In r (energy_types_cumulative energy_data year entities) ->
                 Entity r <> entity_name)
          /\ (forall lo hi regions r,
                 In r (search_filtered energy_data lo hi regions) ->
                 Entity r <> entity_name).
Proof.
  split; [apply get_iso_alpha3_total|].
  eexists. split; [apply working_dataset_total|].
  split; [apply working_dataset_In|].
  intros name Hnone.
  assert (Hrows : forall r,
             In r (dropna_ISO_A3
                     (map (fun r => {| record := r;
                                       ISO_A3 := countries_db (Entity r) |}) loaded)) ->
             Entity r <> name).
  { intros r Hr Heq. apply working_dataset_In in Hr.
    destruct Hr as [_ [_ Hsome]]. apply Hsome. now rewrite Heq. }
  repeat apply conj.
  - exact Hrows.
  - intros et c v Hin. apply latestYearByEntity_keys in Hin.
    destruct Hin as [r [Hr [He _]]]. exact (Hrows r Hr He).
  - intros y ents r [Hin | Hin];
      apply filter_In in Hin; apply Hrows; tauto.
  - intros lo hi regions r Hin.
    apply filter_In in Hin. apply Hrows; tauto.
Qed.

(** Witness for C6: "World" does not resolve and its row is dropped. *)
Lemma unresolved_entities_leave_every_view_witness :
  exists energy_data,
    working_dataset sample_db sample_loaded = Ok energy_data
    /\ forall r, In r energy_data -> Entity r <> "World"%string.
Proof.
  destruct (unresolved_entities_leave_every_view sample_db sample_loaded)
    as [_ [energy_data [Hok [_ Hout]]]].
  exists energy_data. split; [exact Hok|].
  apply (Hout "World"%string). reflexivity.
Defined.

(** ** Data loader *)

Section LoaderFacts.
Context {V : Type} `{Quantity V}.
Variable float_to_int : V -> Z.
Variable float_repr : V -> string.
Variable py_int : string -> option Z.
Variable file_system : string -> option string.
Variable parse_csv : string -> result (DataFrame V).

Let load := load_data float_to_int float_repr py_int file_system parse_csv.
Let body := load_data_body float_to_int float_repr py_int file_system parse_csv.

Lemma load_data_Ok_iff (filepath : string) (df : DataFrame V) :
  load filepath = Ok df <-> body filepath = Ok df.
Proof.
  unfold load, load_data, try_except. fold body.
  destruct (body filepath) as [d|e]; [tauto|].
  split; [|discriminate]. destruct e; discriminate.
Qed.

Lemma read_csv_missing (filepath : string) :
  file_system filepath = None ->
  exists msg, body filepath = Err (FileNotFoundError msg).
Proof.
  intros Hnone. unfold body, load_data_body, read_csv.
  rewrite Hnone. simpl. eauto.
Qed.

Lemma read_csv_error (filepath text : string) (e : exn) :
  file_system filepath = Some text -> parse_csv text = Err e ->
  body filepath = Err e.
Proof.
  intros Hsome Herr. unfold body, load_data_body, read_csv.
  now rewrite Hsome, Herr.
Qed.
End LoaderFacts.

(** C5. [load_data] raises [FileNotFoundError] when the file is absent and
    [ValueError] ("Error parsing the CSV file...") when pandas cannot parse
    it ([ParserError]); any other exception raised while loading leaves
    [load_data] unchanged; and [load_data] returns a frame exactly when
    nothing was raised. *)
Theorem load_data_failures {V : Type} `{Quantity V}
        (float_to_int : V -> Z) (float_repr : V -> string)
        (py_int : string -> option Z) (file_system : string -> option string)
        (parse_csv : string -> result (DataFrame V)) (filepath : string) :
  let load := load_data float_to_int float_repr py_int file_system parse_csv in
  let body := load_data_body float_to_int float_repr py_int file_system parse_csv in
  (file_system filepath = None ->
   load filepath
   = Err (FileNotFoundError "The data file 'modern-renewable-prod.csv' was not found."))
  /\ (forall text msg,
         file_system filepath = Some text -> parse_csv text = Err (ParserError msg) ->
         load filepath
         = Err (ValueError "Error parsing the CSV file. Please check the file format."))
  /\ (forall e,
         body filepath = Err e ->
         is_FileNotFoundError e = false -> is_ParserError e = false ->
         load filepath = Err e)
  /\ (forall df, load filepath = Ok df <-> body filepath = Ok df)
  /\ (forall e, load filepath = Err e -> exists e', body filepath = Err e').
Proof.
  intros load body. repeat apply conj.
  - intros Hnone.
    destruct (read_csv_missing float_to_int float_repr py_int file_system parse_csv
                               filepath Hnone) as [msg Hmsg].
    unfold load, load_data. now rewrite Hmsg.
  - intros text msg Hsome Herr.
    unfold load, load_data.
    now rewrite (read_csv_error float_to_int float_repr py_int file_system parse_csv
                                filepath text _ Hsome Herr).
  - intros e Hbody Hfnf Hparse. unfold load, load_data. fold body. rewrite Hbody.
    destruct e; simpl in *; congruence.
  - intros df. apply load_data_Ok_iff.
  - intros e. unfold load, load_data. fold body.
    destruct (body filepath) as [d|e']; [discriminate | eauto].
Qed.

(** Witness for C5: a path the sample file system does not have. *)
Lemma load_data_failures_witness :
  sample_load_data "missing.csv"
  = Err (FileNotFoundError "The data file 'modern-renewable-prod.csv' was not found.").
Proof.
  apply (proj1 (load_data_failures (fun v : Z => v) str_of_Z (fun _ => None)
                                   sample_file_system sample_parse_csv "missing.csv")).
  reflexivity.
Defined.

Section FrameFacts.
Context {V : Type} `{Quantity V}.

Lemma has_column_find (l : string) (df : DataFrame V) :
  has_column l df = true -> exists c, find (labelled l) df = Some c.
Proof.
  unfold has_column, isin, labels. intros Hhas.
  apply existsb_exists in Hhas. destruct Hhas as [l' [Hin Heq]].
  apply String.eqb_eq in Heq. subst l'.
  apply in_map_iff in Hin. destruct Hin as [c [Hfst Hin]].
  destruct (find (labelled l) df) as [c'|] eqn:Hfind; [eauto|].
  exfalso. apply (find_none _ _ Hfind) in Hin.
  unfold labelled in Hin. rewrite Hfst, String.eqb_refl in Hin. discriminate.
Qed.

Lemma has_column_In (l : string) (df : DataFrame V) :
  has_column l df = true <-> In l (labels df).
Proof.
  unfold has_column, isin. rewrite existsb_exists. split.
  - intros [l' [Hin Heq]]. apply String.eqb_eq in Heq. now subst.
  - intros Hin. exists l. split; [assumption | apply String.eqb_refl].
Qed.

Lemma find_map_labelled (g : string * list (cell V) -> string * list (cell V))
      (l : string) (df : DataFrame V) :
  (forall c, fst (g c) = fst c) ->
  find (labelled l) (map g df) = option_map g (find (labelled l) df).
Proof.
  intros Hfst. induction df as [|c df IH]; simpl; [reflexivity|].
  unfold labelled at 1 3. rewrite Hfst.
  destruct (String.eqb (fst c) l); [reflexivity | exact IH].
Qed.

Lemma find_drop_other (l l' : string) (df : DataFrame V) :
  String.eqb l l' = false ->
  find (labelled l) (filter (fun c => negb (String.eqb (fst c) l')) df)
  = find (labelled l) df.
Proof.
  intros Hneq. induction df as [|c df IH]; simpl; [reflexivity|].
  unfold labelled at 2.
  destruct (String.eqb (fst c) l') eqn:Hc; simpl.
  - apply String.eqb_eq in Hc. rewrite Hc.
    rewrite String.eqb_sym, Hneq. exact IH.
  - unfold labelled at 1. destruct (String.eqb (fst c) l); [reflexivity | exact IH].
Qed.

Lemma labels_map (g : string * list (cell V) -> string * list (cell V))
      (df : DataFrame V) :
  (forall c, fst (g c) = fst c) -> labels (map g df) = labels df.
Proof.
  intros Hfst. unfold labels. rewrite map_map. apply map_ext, Hfst.
Qed.

Lemma labels_drop (l : string) (df : DataFrame V) :
  labels (filter (fun c => negb (String.eqb (fst c) l)) df)
  = filter (fun l' => negb (String.eqb l' l)) (labels df).
Proof.
  unfold labels. induction df as [|c df IH]; simpl; [reflexivity|].
  destruct (String.eqb (fst c) l); simpl; now rewrite IH.
Qed.

Lemma length_drop_NoDup (l : string) (ls : list string) :
  NoDup ls -> In l ls ->
  S (List.length (filter (fun l' => negb (String.eqb l' l)) ls)) = List.length ls.
Proof.
  induction 1 as [|x ls Hnotin Hnd IH]; intros Hin; [contradiction|].
  simpl. destruct (String.eqb_spec x l) as [->|Hneq]; simpl.
  - f_equal. f_equal. apply filter_all. intros y Hy.
    apply negb_true_iff, String.eqb_neq. intros ->. contradiction.
  - f_equal. apply IH. destruct Hin; [contradiction | assumption].
Qed.

Lemma fst_set_column (l : string) (cells : list (cell V)) c :
  fst (if String.eqb (fst c) l then (fst c, cells) else c) = fst c.
Proof. now destruct (String.eqb (fst c) l). Qed.

Lemma fst_fill (cols : list string) (c : string * list (cell V)) :
  fst (if isin (fst c) cols then (fst c, map fillna0 (snd c)) else c) = fst c.
Proof. now destruct (isin (fst c) cols). Qed.

Lemma get_column_set_same (l : string) (cells : list (cell V)) (df : DataFrame V)
      (old : list (cell V)) :
  get_column l df = Ok old -> get_column l (set_column l cells df) = Ok cells.
Proof.
  unfold get_column, set_column. fold (@labelled V l).
  rewrite find_map_labelled by (intros; apply fst_set_column).
  destruct (find (labelled l) df) as [c|] eqn:Hfind; [|discriminate].
  intros _. simpl. apply find_some in Hfind. destruct Hfind as [_ Hc].
  unfold labelled in Hc. now rewrite Hc.
Qed.

Lemma get_column_set_other (l l' : string) (cells : list (cell V)) (df : DataFrame V) :
  String.eqb l l' = false ->
  get_column l (set_column l' cells df) = get_column l df.
Proof.
  intros Hneq. unfold get_column, set_column. fold (@labelled V l).
  rewrite find_map_labelled by (intros; apply fst_set_column).
  destruct (find (labelled l) df) as [c|] eqn:Hfind; [|reflexivity].
  simpl. apply find_some in Hfind. destruct Hfind as [_ Hc].
  unfold labelled in Hc. apply String.eqb_eq in Hc. rewrite Hc, Hneq. reflexivity.
Qed.

Lemma mapM_astype_int (float_to_int : V -> Z) (py_int : string -> option Z)
      (cells ints : list (cell V)) :
  mapM (astype_int float_to_int py_int) cells = Ok ints ->
  forallb is_int ints = true.
Proof.
  revert ints. induction cells as [|c cells IH]; simpl; intros ints Hok.
  - inversion Hok. reflexivity.
  - destruct (astype_int float_to_int py_int c) as [c'|] eqn:Hc; [|discriminate].
    simpl in Hok.
    destruct (mapM (astype_int float_to_int py_int) cells) as [rest|];
      [|discriminate].
    inversion Hok; subst. simpl. rewrite (IH rest eq_refl), andb_true_r.
    destruct c as [|z|v|s]; simpl in Hc; try discriminate.
    + now inversion Hc.
    + now inversion Hc.
    + destruct (py_int s); [now inversion Hc | discriminate].
Qed.

Lemma astype_str_all (float_repr : V -> string) (cells : list (cell V)) :
  forallb is_str (map (astype_str float_repr) cells) = true.
Proof.
  induction cells as [|c cells IH]; simpl; [reflexivity|].
  rewrite IH. now destruct c.
Qed.

Lemma fillna0_spec (c : cell V) :
  is_missing (fillna0 c) = false
  /\ (c = NaN -> fillna0 c = FloatCell qzero)
  /\ (c <> NaN -> fillna0 c = c).
Proof. destruct c; simpl; repeat split; congruence. Qed.
End FrameFacts.

(** C4. When [load_data] returns a frame, the file was read and parsed into a
    raw frame that has a Code column; the returned frame has the raw frame's
    columns without Code (one column fewer, as read_csv gives every column
    its own label); every cell of the four energy columns is present and is
    the raw cell, or zero where the raw cell was missing; every Year cell is
    an integer and every Entity cell is a string. *)
Theorem load_data_postconditions {V : Type} `{Quantity V}
        (float_to_int : V -> Z) (float_repr : V -> string)
        (py_int : string -> option Z) (file_system : string -> option string)
        (parse_csv : string -> result (DataFrame V))
        (filepath : string) (df : DataFrame V) :
  load_data float_to_int float_repr py_int file_system parse_csv filepath = Ok df ->
  exists text raw,
    file_system filepath = Some text /\ parse_csv text = Ok raw
    /\ In "Code"%string (labels raw)
    /\ ~ In "Code"%string (labels df)
    /\ labels df = filter (fun l => negb (String.eqb l "Code")) (labels raw)
    /\ (NoDup (labels raw) -> S (List.length df) = List.length raw)
    /\ (forall label, In label energy_columns ->
          exists cells raw_cells,
            get_column label df = Ok cells
            /\ get_column label raw = Ok raw_cells
            /\ Forall2 (fun c c0 => is_missing c = false
                                    /\ (c0 = NaN -> c = FloatCell qzero)
                                    /\ (c0 <> NaN -> c = c0))
                       cells raw_cells)
    /\ (exists years, get_column "Year" df = Ok years /\ forallb is_int years = true)
    /\ (exists entities,
           get_column "Entity" df = Ok entities /\ forallb is_str entities = true).
Proof.
  intros Hload. apply load_data_Ok_iff in Hload.
  unfold load_data_body, read_csv in Hload.
  cbv beta iota delta [bind] in Hload.
  destruct (file_system filepath) as [text|] eqn:Hfs; [|discriminate].
  destruct (parse_csv text) as [raw|] eqn:Hparse; [|discriminate].
  cbv beta iota delta [bind] in Hload. unfold drop in Hload.
  destruct (has_column "Code" raw) eqn:Hcode; [|discriminate].
  cbv beta iota delta [bind] in Hload. unfold fillna_columns in Hload.
  set (df1 := filter (fun c => negb (String.eqb (fst c) "Code")) raw) in *.
  destruct (find (fun l => negb (has_column l df1)) energy_columns) eqn:Hmiss;
    [discriminate|].
  cbv beta iota delta [bind] in Hload.
  set (fill := fun c : string * list (cell V) =>
                 if isin (fst c) energy_columns
                 then (fst c, map fillna0 (snd c)) else c) in *.
  set (df2 := map fill df1) in *.
  destruct (get_column "Year" df2) as [years|] eqn:Hyears; [|discriminate].
  cbv beta iota delta [bind] in Hload.
  destruct (mapM (astype_int float_to_int py_int) years) as [ints|] eqn:Hints;
    [|discriminate].
  cbv beta iota delta [bind] in Hload.
  set (df3 := set_column "Year" ints df2) in *.
  destruct (get_column "Entity" df3) as [entities|] eqn:Hents; [|discriminate].
  cbv beta iota delta [bind] in Hload. inversion Hload as [Hdf]. clear Hload. subst df.
  assert (Hfill : forall c, fst (fill c) = fst c) by (intros; apply fst_fill).
  assert (Hlabels : labels (set_column "Entity" (map (astype_str float_repr) entities) df3)
                    = filter (fun l => negb (String.eqb l "Code")) (labels raw)).
  { unfold set_column, df3, set_column, df2, df1.
    rewrite !labels_map by (intros; apply fst_set_column || apply Hfill).
    apply labels_drop. }
  exists text, raw. repeat apply conj; try reflexivity; try assumption.
  - now apply has_column_In.
  - rewrite Hlabels. intros Hin. apply filter_In in Hin.
    destruct Hin as [_ Hin]. discriminate Hin.
  - intros Hnd. apply has_column_In in Hcode.
    pose proof (length_drop_NoDup "Code" (labels raw) Hnd Hcode) as Hlen.
    rewrite <- Hlabels in Hlen. unfold labels in Hlen.
    rewrite !length_map in Hlen. exact Hlen.
  - intros label Hlabel.
    assert (Hhas : has_column label df1 = true).
    { apply (find_none _ _ Hmiss) in Hlabel. now apply negb_false_iff in Hlabel. }
    destruct (has_column_find label df1 Hhas) as [c Hc].
    assert (Hne : String.eqb label "Code" = false
                  /\ String.eqb label "Year" = false
                  /\ String.eqb label "Entity" = false
                  /\ isin label energy_columns = true).
    { simpl in Hlabel. destruct Hlabel as [<-|[<-|[<-|[<-|[]]]]]; now vm_compute. }
    destruct Hne as [HnC [HnY [HnE Hisin]]].
    exists (map fillna0 (snd c)), (snd c). repeat apply conj.
    + rewrite get_column_set_other by exact HnE.
      unfold df3. rewrite get_column_set_other by exact HnY.
      unfold get_column, df2. fold (@labelled V label).
      rewrite find_map_labelled by exact Hfill. rewrite Hc. simpl.
      unfold fill. apply find_some in Hc. destruct Hc as [_ Hc].
      unfold labelled in Hc. apply String.eqb_eq in Hc. now rewrite Hc, Hisin.
    + unfold get_column. fold (@labelled V label).
      unfold df1 in Hc. rewrite find_drop_other in Hc by exact HnC. now rewrite Hc.
    + induction (snd c) as [|c0 cs IH]; simpl; constructor; [|exact IH].
      apply fillna0_spec.
  - exists ints. split; [|exact (mapM_astype_int _ _ _ _ Hints)].
    rewrite get_column_set_other by reflexivity.
    unfold df3. exact (get_column_set_same _ _ _ _ Hyears).
  - exists (map (astype_str float_repr) entities).
    split; [|apply astype_str_all].
    exact (get_column_set_same _ _ _ _ Hents).
Qed.

(** Witness for C4: the sample file loads. *)
Lemma load_data_postconditions_witness :
  exists df,
    sample_load_data "modern-renewable-prod.csv" = Ok df
    /\ ~ In "Code"%string (labels df)
    /\ S (List.length df) = List.length sample_frame.
Proof.
  destruct (sample_load_data "modern-renewable-prod.csv") as [df|e] eqn:Hload;
    [|vm_compute in Hload; discriminate Hload].
  destruct (load_data_postconditions (fun v : Z => v) str_of_Z (fun _ => None)
              sample_file_system sample_parse_csv
              "modern-renewable-prod.csv" df Hload)
    as [text [raw [_ [Hparse [_ [Hnot [_ [Hlen _]]]]]]]].
  exists df. split; [reflexivity|]. split; [exact Hnot|].
  unfold sample_parse_csv in Hparse. inversion Hparse; subst raw.
  apply Hlen. vm_compute. repeat constructor; simpl; intuition discriminate.
Defined.

(** ** Aggregation *)

Section AggregationFacts.
Context {V : Type} `{Quantity V}.

Lemma total_sum_columns (t : EnergyType) (rows : list (Row V)) :
  total t (sum_columns rows) = qsum (map (column t) rows).
Proof. now destruct t. Qed.

(** Summing the per-entity sums of a column gives the column's sum. *)
Lemma entity_groups_total (t : EnergyType) (data : list (Row V)) :
  qsum (map (fun g => total t (snd g)) (sumByEntityAndEnergyType data))
  = qsum (map (column t) data).
Proof.
  unfold sumByEntityAndEnergyType. rewrite map_map. simpl.
  rewrite (map_ext _ (fun e => qsum (map (column t)
                                (filter (fun r : Row V => String.eqb (Entity r) e) data))))
    by (intros; apply total_sum_columns).
  apply (qsum_groups_total (column t) (fun e (r : Row V) => String.eqb (Entity r) e)).
  - intros e1 e2 r H1 H2. apply String.eqb_eq in H1, H2. congruence.
  - apply unique_keys_NoDup.
  - intros r Hr. exists (Entity r). split; [|apply String.eqb_refl].
    apply unique_keys_In. now apply (in_map (fun r : Row V => Entity r)).
Qed.

Lemma fold_left_max_ge (l : list Z) (a : Z) :
  a <= fold_left Z.max l a /\ forall x, In x l -> x <= fold_left Z.max l a.
Proof.
  revert a. induction l as [|y l IH]; intros a; simpl.
  - split; [lia | tauto].
  - destruct (IH (Z.max a y)) as [Hge Hall]. split; [lia|].
    intros x [<- | Hx]; [lia | now apply Hall].
Qed.

Lemma fold_left_max_In (l : list Z) (a : Z) :
  fold_left Z.max l a = a \/ In (fold_left Z.max l a) l.
Proof.
  revert a. induction l as [|y l IH]; intros a; simpl; [now left|].
  destruct (IH (Z.max a y)) as [Heq | Hin]; [|now right; right].
  rewrite Heq. destruct (Z.max_spec a y) as [[_ ->] | [_ ->]]; auto.
Qed.

Lemma year_max_spec (rows : list (Row V)) :
  rows <> [] ->
  exists latest_year,
    year_max rows = Some latest_year
    /\ (exists r, In r rows /\ Year r = latest_year)
    /\ (forall r, In r rows -> Year r <= latest_year).
Proof.
  destruct rows as [|r0 rest]; [congruence|]. intros _.
  eexists. split; [reflexivity|]. split.
  - destruct (fold_left_max_In (map (fun x : Row V => Year x) rest) (Year r0))
      as [Heq | Hin].
    + exists r0. split; [now left | now rewrite Heq].
    + apply in_map_iff in Hin. destruct Hin as [r [Hr Hin]].
      exists r. split; [now right | exact Hr].
  - destruct (fold_left_max_ge (map (fun x : Row V => Year x) rest) (Year r0))
      as [Hge Hall].
    intros r [<- | Hr]; [exact Hge|].
    apply Hall. now apply (in_map (fun x : Row V => Year x)).
Qed.

Lemma key_is_spec (e c : string) (r : Row V) :
  key_is (e, c) r = true <-> Entity r = e /\ ISO_A3 r = Some c.
Proof.
  unfold key_is, entity_iso_key.
  destruct (ISO_A3 r) as [c'|]; [|split; [discriminate | intros [_ ?]; discriminate]].
  destruct (pair_eq_dec (Entity r, c') (e, c)) as [Heq | Hneq].
  - inversion Heq. tauto.
  - split; [discriminate|]. intros [He Hc]. inversion Hc. congruence.
Qed.
End AggregationFacts.

Lemma pie_sum_by_entity {V : Type} `{Quantity V} (data : list (Row V)) :
  pie_sum (sumByEntityAndEnergyType data)
  = [ (column_name WindPower, qsum (map (column WindPower) data));
      (column_name SolarPower, qsum (map (column SolarPower) data));
      (column_name HydroPower, qsum (map (column HydroPower) data));
      (column_name OtherRenewables, qsum (map (column OtherRenewables) data)) ].
Proof.
  unfold pie_sum, energy_types_values. cbn [map].
  now rewrite !entity_groups_total.
Qed.

(** C10. The pie of the Energy Types view has exactly four slices, one per
    energy type in the order of the dropdown, and the value of each is the
    sum of that column over all rows it is given; grouping by entity first
    changes nothing. *)
Theorem pie_slices_are_column_totals {V : Type} `{Quantity V}
        (data : list (Row V)) (year : Z) :
  create_energy_pie_fig data year
  = PieFigure
      [ (column_name WindPower, qsum (map (column WindPower) data));
        (column_name SolarPower, qsum (map (column SolarPower) data));
        (column_name HydroPower, qsum (map (column HydroPower) data));
        (column_name OtherRenewables, qsum (map (column OtherRenewables) data)) ]
      ("Energy Consumption Distribution in " ++ str_of_Z year).
Proof.
  unfold create_energy_pie_fig. now rewrite pie_sum_by_entity.
Qed.

(** C7. For a non-empty table the map is built from the rows of the largest
    year only: its rows carry pairwise different (entity, code) pairs, the
    pairs are exactly those of the rows of the largest year (that have a
    code), and the value of a pair is the sum of the selected column over the
    rows of the largest year with that entity and code. *)
Theorem latestYearByEntity_one_row_per_pair {V : Type} `{Quantity V}
        (rows : list (Row V)) (energy_type : EnergyType) :
  rows <> [] ->
  exists latest_year,
    year_max rows = Some latest_year
    /\ (exists r, In r rows /\ Year r = latest_year)
    /\ (forall r, In r rows -> Year r <= latest_year)
    /\ NoDup (map fst (latestYearByEntity rows energy_type))
    /\ (forall e c,
           In (e, c) (map fst (latestYearByEntity rows energy_type))
           <-> exists r, In r rows /\ Year r = latest_year
                         /\ Entity r = e /\ ISO_A3 r = Some c)
    /\ (forall e c v,
           In (e, c, v) (latestYearByEntity rows energy_type) ->
           v = qsum (map (column energy_type)
                         (filter (fun r : Row V =>
                                    (Year r =? latest_year) && key_is (e, c) r)
                                 rows)))
    /\ (forall e c (r : Row V), key_is (e, c) r = true <-> Entity r = e /\ ISO_A3 r = Some c).
Proof.
  intros Hne. destruct (year_max_spec rows Hne) as [latest [Hmax [Hex Hub]]].
  exists latest. unfold latestYearByEntity, groupby_Entity_ISO_sum.
  cbv zeta. rewrite Hmax.
  split; [reflexivity|]. repeat apply conj; try assumption.
  - rewrite map_map. simpl. rewrite map_id. apply unique_keys_NoDup.
  - intros e c. rewrite map_map. simpl. rewrite map_id.
    rewrite unique_keys_In, present_keys_In. split.
    + intros [r [Hr Hkey]]. exists r.
      unfold filterByYear in Hr. apply filter_In in Hr. destruct Hr as [Hin Hy].
      unfold entity_iso_key in Hkey.
      destruct (ISO_A3 r); inversion Hkey; subst.
      repeat split; [assumption | lia].
    + intros [r [Hin [Hy [He Hc]]]]. exists r. split.
      * unfold filterByYear. apply filter_In. split; [assumption | lia].
      * unfold entity_iso_key. now rewrite Hc, He.
  - intros e c v Hin. apply in_map_iff in Hin. destruct Hin as [k [Hk _]].
    inversion Hk; subst. unfold filterByYear. now rewrite filter_filter.
  - intros e c r. apply key_is_spec.
Qed.

(** Witness for C7: the latest year of the sample rows is 2021. *)
Lemma latestYearByEntity_one_row_per_pair_witness :
  exists latest_year,
    year_max tunisia_rows = Some latest_year
    /\ NoDup (map fst (latestYearByEntity tunisia_rows WindPower)).
Proof.
  destruct (latestYearByEntity_one_row_per_pair tunisia_rows WindPower)
    as [latest [Hmax [_ [_ [Hnd _]]]]].
  - discriminate.
  - exists latest. split; [exact Hmax | exact Hnd].
Defined.

(** ** Cumulative sums by year *)

Section CumulativeFacts.
Context {V : Type} `{Quantity V}.

Lemma totals_add_assoc (a b c : Totals V) :
  totals_add a (totals_add b c) = totals_add (totals_add a b) c.
Proof. unfold totals_add. simpl. now rewrite !qadd_assoc. Qed.

Lemma totals_add_0_r (a : Totals V) : totals_add a totals_zero = a.
Proof. destruct a. unfold totals_add. simpl. now rewrite !qadd_0_r. Qed.

Lemma totals_add_0_l (a : Totals V) : totals_add totals_zero a = a.
Proof. destruct a. unfold totals_add. simpl. now rewrite !qadd_0_l. Qed.

Lemma total_totals_sum (t : EnergyType) (l : list (Totals V)) :
  total t (totals_sum l) = qsum (map (total t) l).
Proof.
  induction l as [|x l IH]; simpl; [now destruct t|].
  rewrite <- IH. now destruct t.
Qed.

Lemma sum_up_to_cons (Y y : Z) (t : Totals V) (rest : list (Z * Totals V)) :
  sum_up_to Y ((y, t) :: rest)
  = if y <=? Y then totals_add t (sum_up_to Y rest) else sum_up_to Y rest.
Proof. unfold sum_up_to. simpl. now destruct (y <=? Y). Qed.

Lemma sum_up_to_later (Y : Z) (l : list (Z * Totals V)) :
  Forall (fun y => Y < y) (map fst l) -> sum_up_to Y l = totals_zero.
Proof.
  intros Hall. unfold sum_up_to. rewrite filter_none; [reflexivity|].
  intros p Hp. apply Z.leb_gt.
  rewrite Forall_forall in Hall. apply Hall. now apply in_map.
Qed.

(** In a frame indexed by strictly ascending years, the running sum at a
    year is the sum of the rows up to that year. *)
Lemma cumsum_rows_at_year (l : list (Z * Totals V)) (acc : Totals V) (Y : Z) :
  StronglySorted Z.lt (map fst l) ->
  at_year Y (cumsum_rows_from acc l)
  = if existsb (fun y => y =? Y) (map fst l)
    then Some (totals_add acc (sum_up_to Y l))
    else None.
Proof.
  revert acc. induction l as [|[y t] rest IH]; intros acc Hs; [reflexivity|].
  simpl in Hs. inversion Hs as [|? ? Hs' Hall]; subst.
  unfold at_year. simpl. rewrite sum_up_to_cons.
  destruct (Z.eqb_spec y Y) as [->|Hneq]; simpl.
  - rewrite Z.leb_refl, sum_up_to_later by exact Hall.
    now rewrite totals_add_0_r.
  - fold (at_year Y (cumsum_rows_from (totals_add acc t) rest)).
    rewrite (IH _ Hs').
    destruct (existsb (fun y0 => y0 =? Y) (map fst rest)) eqn:Hex; [|reflexivity].
    apply existsb_exists in Hex. destruct Hex as [y' [Hin Hy']].
    apply Z.eqb_eq in Hy'. subst y'.
    rewrite Forall_forall in Hall. specialize (Hall Y Hin).
    destruct (Z.leb_spec y Y); [|lia].
    now rewrite totals_add_assoc.
Qed.

Lemma groupby_Year_sum_index (rows : list (Row V)) :
  map fst (index_rows (groupby_Year_sum rows))
  = unique_keys Z.eq_dec Z.leb (map (fun r : Row V => Year r) rows).
Proof.
  unfold groupby_Year_sum, groupby_Year. simpl.
  rewrite !map_map. simpl. apply map_id.
Qed.

Lemma has_year_keys (Y : Z) (rows : list (Row V)) :
  existsb (fun y => y =? Y)
          (unique_keys Z.eq_dec Z.leb (map (fun r : Row V => Year r) rows))
  = has_year Y rows.
Proof.
  unfold has_year. apply eq_true_iff_eq.
  rewrite !existsb_exists. split.
  - intros [y [Hin Hy]]. apply unique_keys_In, in_map_iff in Hin.
    destruct Hin as [r [Hr Hin]]. exists r. split; [assumption | now rewrite Hr].
  - intros [r [Hin Hy]]. exists (Year r). split; [|assumption].
    apply unique_keys_In. now apply (in_map (fun r : Row V => Year r)).
Qed.

(** The Energy Types area chart: the cumulative table has a row at year [Y]
    exactly when the input has a row of that year, and the row is the sum of
    the per-year rows up to [Y]. *)
Lemma sumByYear_cumulative_at_year (rows : list (Row V)) (Y : Z) :
  at_year Y (sumByYear rows true)
  = if has_year Y rows
    then Some (sum_up_to Y (sumByYear rows false))
    else None.
Proof.
  unfold sumByYear, reset_index, cumsum_indexed. cbn [index_rows].
  rewrite cumsum_rows_at_year, groupby_Year_sum_index, has_year_keys.
  - now rewrite totals_add_0_l.
  - rewrite groupby_Year_sum_index. apply unique_years_sorted.
Qed.

Lemma sumByYear_cumulative_column (rows : list (Row V)) (Y : Z) (t : EnergyType) :
  option_map (total t) (at_year Y (sumByYear rows true))
  = if has_year Y rows
    then Some (qsum (map (fun p => total t (snd p))
                         (filter (fun p => fst p <=? Y) (sumByYear rows false))))
    else None.
Proof.
  rewrite sumByYear_cumulative_at_year. destruct (has_year Y rows); [|reflexivity].
  simpl. unfold sum_up_to. now rewrite total_totals_sum, map_map.
Qed.

Lemma sumByYear_annual_table (rows : list (Row V)) :
  sumByYear rows false
  = map (fun y => (y, sum_columns (filterByYear rows y)))
        (unique_keys Z.eq_dec Z.leb (map (fun r : Row V => Year r) rows)).
Proof.
  unfold sumByYear, reset_index, groupby_Year_sum, groupby_Year.
  cbn [index_rows]. now rewrite map_map.
Qed.

(** The per-year rows up to [Y] add up to the column sums over the input
    rows with year at most [Y]. *)
Lemma sum_up_to_sumByYear (rows : list (Row V)) (Y : Z) (t : EnergyType) :
  total t (sum_up_to Y (sumByYear rows false))
  = qsum (map (column t) (filterUpToYear rows Y)).
Proof.
  rewrite sumByYear_annual_table. unfold sum_up_to.
  rewrite filter_map_swap, total_totals_sum, !map_map. cbn [fst snd].
  rewrite (map_ext _ (fun y => qsum (map (column t)
                                (filter (fun r : Row V => Year r =? y) rows))))
    by (intros; apply total_sum_columns).
  rewrite (qsum_groups (column t) (fun y (r : Row V) => Year r =? y)).
  - f_equal. f_equal. unfold filterUpToYear. apply filter_ext_in.
    intros r Hr. apply eq_true_iff_eq. rewrite existsb_exists. split.
    + intros [y [Hy Heq]]. apply filter_In in Hy. apply Z.eqb_eq in Heq.
      rewrite Heq. tauto.
    + intros Hle. exists (Year r). split; [|apply Z.eqb_refl].
      apply filter_In. split; [|exact Hle].
      apply unique_keys_In. now apply (in_map (fun r : Row V => Year r)).
  - intros y1 y2 r H1 H2. apply Z.eqb_eq in H1, H2. congruence.
  - apply NoDup_filter, unique_keys_NoDup.
Qed.

(** The cumulative table at a year of the input holds, in every column, the
    sum of that column over all input rows up to that year. *)
Lemma sumByYear_cumulative_rows (rows : list (Row V)) (Y : Z) (t : EnergyType) :
  option_map (total t) (at_year Y (sumByYear rows true))
  = if has_year Y rows
    then Some (qsum (map (column t) (filterUpToYear rows Y)))
    else None.
Proof.
  rewrite sumByYear_cumulative_at_year. destruct (has_year Y rows); [|reflexivity].
  cbn [option_map]. now rewrite sum_up_to_sumByYear.
Qed.


End CumulativeFacts.

(** C1. On the two Tunisia rows the cumulative table of the Energy Types
    area chart has wind 4 and solar 2 at 2021, the sum of the per-year rows
    up to 2021.  The Search area chart, for the range 2020-2021, accumulates
    the Year column with the wind column: its rows are (2020, 1) and
    (4041, 4), and it has no row at 2021. *)
Theorem search_area_accumulates_years :
  at_year 2021 (sumByYear tunisia_rows true)
  = Some {| tWind := 4; tSolar := 2; tHydro := 0; tOther := 0 |}
  /\ at_year 2021 (sumByYear tunisia_rows true)
     = Some (sum_up_to 2021 (sumByYear tunisia_rows false))
  /\ search_filtered tunisia_rows 2020 2021 ["Tunisia"%string] = tunisia_rows
  /\ search_area_data tunisia_rows WindPower = [(2020, 1); (4041, 4)]
  /\ at_year 2021 (search_area_data tunisia_rows WindPower) = None
  /\ exists line_fig bar_fig pie_fig,
      update_search_section tunisia_rows [2020; 2021] (Some ["Tunisia"%string])
                            (Some WindPower)
      = Return (line_fig, bar_fig, pie_fig,
                AreaFigureOf [(2020, 1); (4041, 4)] WindPower
                  "Cumulative Electricity from wind - TWh Consumption Over Years").
Proof.
  repeat apply conj; try reflexivity.
  do 3 eexists. reflexivity.
Qed.

(** ** The Energy Types view *)

Lemma nonempty_In {A : Type} (l : list A) : l <> [] -> exists x, In x l.
Proof. destruct l as [|x l]; [congruence | intros _; exists x; now left]. Qed.

(** C8 (as amended). In the Energy Types view, for a selected year [Y] and a
    non-empty entity selection with at least one row of the selected entities
    in year [Y]: the pie and the bar chart are built from the rows of the
    selected entities with year [Y] (each pie slice is a column sum over those
    rows), and the area chart is the running sum over all rows of the
    selected entities with year at most [Y] (at [Y] it holds, in every
    column, the sum over all those rows). *)
Theorem energy_types_area_spans_all_years {V : Type} `{Quantity V}
        (energy_data : list (Row V)) (Y : Z) (selected_entities : option (list string)) :
  let year_rows :=
    filterByEntities (filterByYear energy_data Y) (selected selected_entities) in
  let rows_up_to_year :=
    filterByEntities (filterUpToYear energy_data Y) (selected selected_entities) in
  not_ selected_entities = false ->
  year_rows <> [] ->
  exists area_data,
    update_energy_types energy_data (Some Y) selected_entities
    = Return (create_energy_pie_fig year_rows Y,
              AreaFigure area_data
                         "Cumulative Energy Consumption Over Years"
                         "Cumulative Electricity Consumption (TWh)",
              create_energy_bar_fig year_rows)
    /\ area_data = sumByYear rows_up_to_year true
    /\ (forall t, option_map (total t) (at_year Y area_data)
                  = Some (qsum (map (column t) rows_up_to_year)))
    /\ (exists title,
           create_energy_pie_fig year_rows Y
           = PieFigure
               (map (fun t => (column_name t, qsum (map (column t) year_rows)))
                    energy_types_values)
               title)
    /\ create_energy_bar_fig year_rows
       = BarFigure year_rows energy_types_values
                   "Energy Consumption by Entity and Energy Type"
    /\ (forall r, In r rows_up_to_year
                  <-> In r energy_data /\ Year r <= Y
                      /\ In (Entity r) (selected selected_entities))
    /\ (forall r, In r year_rows
                  <-> In r energy_data /\ Year r = Y
                      /\ In (Entity r) (selected selected_entities)).
Proof.
  intros year_rows rows_up_to_year Hsel Hrows.
  assert (Hmem_up : forall r, In r rows_up_to_year
                              <-> In r energy_data /\ Year r <= Y
                                  /\ In (Entity r) (selected selected_entities)).
  { intros r. unfold rows_up_to_year, filterByEntities, filterUpToYear.
    rewrite !filter_In. unfold isin. rewrite existsb_exists, Z.leb_le. split.
    - intros [[Hin Hy] [e [He Heq]]]. apply String.eqb_eq in Heq. subst e. tauto.
    - intros [Hin [Hy He]]. repeat split; try assumption.
      exists (Entity r). split; [assumption | apply String.eqb_refl]. }
  assert (Hmem_year : forall r, In r year_rows
                                <-> In r energy_data /\ Year r = Y
                                    /\ In (Entity r) (selected selected_entities)).
  { intros r. unfold year_rows, filterByEntities, filterByYear.
    rewrite !filter_In. unfold isin. rewrite existsb_exists, Z.eqb_eq. split.
    - intros [[Hin Hy] [e [He Heq]]]. apply String.eqb_eq in Heq. subst e. tauto.
    - intros [Hin [Hy He]]. repeat split; try assumption.
      exists (Entity r). split; [assumption | apply String.eqb_refl]. }
  exists (sumByYear rows_up_to_year true). repeat apply conj.
  - unfold update_energy_types. rewrite Hsel.
    rewrite energy_types_filtered_eq, energy_types_cumulative_eq.
    fold year_rows rows_up_to_year.
    destruct (empty year_rows) eqn:Hempty; [|reflexivity].
    apply empty_true_iff in Hempty. contradiction.
  - reflexivity.
  - intros t. rewrite sumByYear_cumulative_rows.
    assert (Hhas : has_year Y rows_up_to_year = true).
    { destruct (nonempty_In year_rows Hrows) as [r Hr].
      apply Hmem_year in Hr. destruct Hr as [Hin [Hy He]].
      unfold has_year. apply existsb_exists. exists r. split.
      - apply Hmem_up. repeat split; [assumption | lia | assumption].
      - now apply Z.eqb_eq. }
    rewrite Hhas. do 3 f_equal. unfold filterUpToYear. apply filter_all.
    intros r Hr. apply Hmem_up in Hr. apply Z.leb_le. tauto.
  - eexists. unfold create_energy_pie_fig. rewrite pie_sum_by_entity. reflexivity.
  - reflexivity.
  - exact Hmem_up.
  - exact Hmem_year.
Qed.

(** Witness for C8: Tunisia in 2021. *)
Lemma energy_types_area_spans_all_years_witness :
  exists area_data,
    area_data
    = [(2020, {| tWind := 1; tSolar := 2; tHydro := 0; tOther := 0 |});
       (2021, {| tWind := 4; tSolar := 2; tHydro := 0; tOther := 0 |})]
    /\ option_map (total WindPower) (at_year 2021 area_data) = Some 4.
Proof.
  destruct (energy_types_area_spans_all_years
              tunisia_rows 2021 (Some ["Tunisia"%string]))
    as [area_data [_ [Harea [Hsum _]]]].
  - reflexivity.
  - discriminate.
  - exists area_data. split; [exact Harea | exact (Hsum WindPower)].
Defined.

(** C8 as stated fails when the selected entities have rows before the
    selected year but none in it: all three figures, the area chart too, are
    the "no data" placeholder although the rows up to that year are not
    empty. *)
Lemma area_is_placeholder_without_rows_in_year :
  energy_types_cumulative tunisia_rows 2022 ["Tunisia"%string] = tunisia_rows
  /\ update_energy_types tunisia_rows (Some 2022) (Some ["Tunisia"%string])
     = Return (EmptyFigure no_data_year_entities,
               EmptyFigure no_data_year_entities,
               EmptyFigure no_data_year_entities)
  /\ EmptyFigure no_data_year_entities
     <> create_energy_area_fig
          (energy_types_cumulative tunisia_rows 2022 ["Tunisia"%string]) true.
Proof.
  repeat split. discriminate.
Qed.

(** ** Startup *)

(** Whatever [load_data] raises for the data file replaces the dashboard by
    the error alert. *)
Lemma app_layout_on_failure {V : Type} `{Quantity V}
      (float_to_int : V -> Z) (float_repr : V -> string)
      (py_int : string -> option Z) (file_system : string -> option string)
      (parse_csv : string -> result (DataFrame V)) (e : exn) :
  load_data float_to_int float_repr py_int file_system parse_csv
            "modern-renewable-prod.csv" = Err e ->
  app_layout float_to_int float_repr py_int file_system parse_csv = ErrorAlert e.
Proof. intros Herr. unfold app_layout. now rewrite Herr. Qed.

(* ================================================================== *)
(** * Further properties of the loader *)
(* ================================================================== *)

Section LoaderEdges.
Context {V : Type} `{Quantity V}.
Variable float_to_int : V -> Z.
Variable float_repr : V -> string.
Variable py_int : string -> option Z.
Variable file_system : string -> option string.
Variable parse_csv : string -> result (DataFrame V).

Local Abbreviation load :=
  (load_data float_to_int float_repr py_int file_system parse_csv).
Local Abbreviation body :=
  (load_data_body float_to_int float_repr py_int file_system parse_csv).
Local Abbreviation drop_Code raw :=
  (filter (fun c : string * list (cell V) => negb (String.eqb (fst c) "Code")) raw).
Local Abbreviation fill :=
  (fun c : string * list (cell V) =>
     if isin (fst c) energy_columns then (fst c, map fillna0 (snd c)) else c).

(** The [try] body after a successful [read_csv], step by step. *)
Lemma load_data_body_parsed (filepath text : string) (raw : DataFrame V) :
  file_system filepath = Some text -> parse_csv text = Ok raw ->
  body filepath
  = (df <- drop "Code" raw ;;
     df <- fillna_columns energy_columns df ;;
     years <- get_column "Year" df ;;
     years <- mapM (astype_int float_to_int py_int) years ;;
     entities <- get_column "Entity" (set_column "Year" years df) ;;
     Ok (set_column "Entity" (map (astype_str float_repr) entities)
                    (set_column "Year" years df))).
Proof.
  intros Hfs Hparse. unfold load_data_body, read_csv.
  now rewrite Hfs, Hparse.
Qed.

Lemma load_of_body_KeyError (filepath msg : string) :
  body filepath = Err (KeyError msg) -> load filepath = Err (KeyError msg).
Proof. intros Hbody. unfold load_data. now rewrite Hbody. Qed.

Lemma load_of_body_ValueError (filepath msg : string) :
  body filepath = Err (ValueError msg) -> load filepath = Err (ValueError msg).
Proof. intros Hbody. unfold load_data. now rewrite Hbody. Qed.

Lemma get_column_missing (label : string) (df : DataFrame V) :
  ~ In label (labels df) -> get_column label df = Err (KeyError label).
Proof.
  intros Hnot. unfold get_column. fold (@labelled V label).
  destruct (find (labelled label) df) as [c|] eqn:Hfind; [|reflexivity].
  exfalso. apply Hnot. apply find_some in Hfind. destruct Hfind as [Hin Hc].
  unfold labelled in Hc. apply String.eqb_eq in Hc. subst label.
  unfold labels. now apply in_map.
Qed.

Lemma get_column_present (label : string) (df : DataFrame V) :
  In label (labels df) -> exists cells, get_column label df = Ok cells.
Proof.
  intros Hin. apply has_column_In in Hin.
  destruct (has_column_find label df Hin) as [c Hc].
  exists (snd c). unfold get_column. fold (@labelled V label). now rewrite Hc.
Qed.

Lemma labels_drop_Code (raw : DataFrame V) (label : string) :
  String.eqb label "Code" = false ->
  (In label (labels (drop_Code raw)) <-> In label (labels raw)).
Proof.
  intros Hneq. rewrite labels_drop, filter_In, Hneq. simpl. tauto.
Qed.

Lemma labels_fill (df : DataFrame V) : labels (map fill df) = labels df.
Proof. apply labels_map. intros c. apply fst_fill. Qed.

Lemma fillna_columns_result (df : DataFrame V) :
  (forall label, In label energy_columns -> In label (labels df)) ->
  fillna_columns energy_columns df = Ok (map fill df).
Proof.
  intros Hall. unfold fillna_columns.
  destruct (find (fun l => negb (has_column l df)) energy_columns) as [l|] eqn:Hfind;
    [|reflexivity].
  apply find_some in Hfind. destruct Hfind as [Hin Hneg].
  apply negb_true_iff in Hneg.
  apply Hall, has_column_In in Hin. congruence.
Qed.

Lemma fillna_columns_missing (df : DataFrame V) (label : string) :
  In label energy_columns -> ~ In label (labels df) ->
  exists msg, fillna_columns energy_columns df = Err (KeyError msg).
Proof.
  intros Hin Hnot. unfold fillna_columns.
  destruct (find (fun l => negb (has_column l df)) energy_columns) as [l|] eqn:Hfind;
    [eauto|].
  exfalso. apply (find_none _ _ Hfind) in Hin.
  apply negb_false_iff, has_column_In in Hin. contradiction.
Qed.

(** Filling the energy columns leaves every other column as it is. *)
Lemma get_column_fill_other (label : string) (df : DataFrame V) :
  isin label energy_columns = false ->
  get_column label (map fill df) = get_column label df.
Proof.
  intros Hother. unfold get_column. fold (@labelled V label).
  rewrite find_map_labelled by (intros; apply fst_fill).
  destruct (find (labelled label) df) as [c|] eqn:Hfind; [|reflexivity].
  cbn [option_map]. cbv beta. apply find_some in Hfind. destruct Hfind as [_ Hc].
  unfold labelled in Hc. apply String.eqb_eq in Hc.
  now rewrite Hc, Hother.
Qed.

Lemma get_column_drop_Code (label : string) (raw : DataFrame V) :
  String.eqb label "Code" = false ->
  get_column label (drop_Code raw) = get_column label raw.
Proof.
  intros Hneq. unfold get_column. fold (@labelled V label).
  now rewrite find_drop_other.
Qed.

Lemma astype_int_error (c : cell V) (e : exn) :
  astype_int float_to_int py_int c = Err e -> exists msg, e = ValueError msg.
Proof.
  destruct c as [|z|v|s]; simpl; try discriminate.
  - intros Herr. inversion Herr. eauto.
  - destruct (py_int s); [discriminate|]. intros Herr. inversion Herr. eauto.
Qed.

Lemma mapM_astype_int_fails (cells : list (cell V)) (c : cell V) (e : exn) :
  In c cells -> astype_int float_to_int py_int c = Err e ->
  exists msg, mapM (astype_int float_to_int py_int) cells = Err (ValueError msg).
Proof.
  induction cells as [|c0 cells IH]; intros Hin Herr; [contradiction|].
  simpl. destruct (astype_int float_to_int py_int c0) as [c0'|e0] eqn:Hc0.
  - destruct Hin as [-> | Hin]; [congruence|].
    destruct (IH Hin Herr) as [msg Hmsg]. exists msg. simpl. now rewrite Hmsg.
  - destruct (astype_int_error c0 e0 Hc0) as [msg ->]. exists msg. reflexivity.
Qed.

Lemma mapM_length {A B : Type} (f : A -> result B) (l : list A) (l' : list B) :
  mapM f l = Ok l' -> List.length l' = List.length l.
Proof.
  revert l'. induction l as [|x l IH]; simpl; intros l' Hok.
  - now inversion Hok.
  - destruct (f x) as [y|]; [|discriminate]. simpl in Hok.
    destruct (mapM f l) as [ys|]; [|discriminate]. simpl in Hok.
    inversion Hok. simpl. f_equal. now apply IH.
Qed.
Lemma get_column_error (label : string) (df : DataFrame V) (e : exn) :
  get_column label df = Err e -> e = KeyError label.
Proof.
  unfold get_column. destruct (find _ df); [discriminate|].
  intros Herr. now inversion Herr.
Qed.

Lemma get_column_In (label : string) (df : DataFrame V) (cells : list (cell V)) :
  get_column label df = Ok cells -> In label (labels df).
Proof.
  intros Hget. destruct (in_dec string_dec label (labels df)) as [Hin|Hnot];
    [exact Hin|].
  rewrite (get_column_missing label df Hnot) in Hget. discriminate.
Qed.

Lemma mapM_astype_int_error (cells : list (cell V)) (e : exn) :
  mapM (astype_int float_to_int py_int) cells = Err e -> exists msg, e = ValueError msg.
Proof.
  induction cells as [|c cells IH]; simpl; [discriminate|].
  destruct (astype_int float_to_int py_int c) as [c'|e'] eqn:Hc; simpl.
  - destruct (mapM (astype_int float_to_int py_int) cells) as [cs|e'']; simpl;
      [discriminate|].
    intros Herr. inversion Herr; subst. now apply IH.
  - intros Herr. inversion Herr; subst. exact (astype_int_error c e Hc).
Qed.

Lemma labels_set_column (label : string) (cells : list (cell V)) (df : DataFrame V) :
  labels (set_column label cells df) = labels df.
Proof. apply labels_map. intros c. apply fst_set_column. Qed.

(** X1. A parsed frame that lacks one of the columns the loader reads by
    name never loads: [load_data] raises [KeyError], except that a missing
    Entity column is only reached after the Year column was converted, so a
    Year cell that cannot be converted raises [ValueError] first. *)
Theorem load_data_missing_column (filepath text : string) (raw : DataFrame V)
        (label : string) :
  file_system filepath = Some text -> parse_csv text = Ok raw ->
  In label required_columns -> ~ In label (labels raw) ->
  exists msg,
    load_data float_to_int float_repr py_int file_system parse_csv filepath
    = Err (KeyError msg)
    \/ (label = "Entity"%string
        /\ load_data float_to_int float_repr py_int file_system parse_csv filepath
           = Err (ValueError msg)).
Proof.
  intros Hfs Hparse Hreq Hnot.
  pose proof (load_data_body_parsed filepath text raw Hfs Hparse) as Hbody.
  unfold drop in Hbody.
  destruct (has_column "Code" raw) eqn:Hcode.
  2:{ eexists. left. apply load_of_body_KeyError. exact Hbody. }
  apply has_column_In in Hcode.
  cbv beta iota delta [bind] in Hbody.
  destruct (fillna_columns energy_columns (drop_Code raw)) as [df2|e2] eqn:Hfill.
  2:{ unfold fillna_columns in Hfill.
      destruct (find (fun l => negb (has_column l (drop_Code raw))) energy_columns);
        [|discriminate].
      inversion Hfill; subst. eexists. left. apply load_of_body_KeyError. exact Hbody. }
  assert (Henergy : forall l, In l energy_columns -> In l (labels raw)).
  { intros l Hl. unfold fillna_columns in Hfill.
    destruct (find (fun l => negb (has_column l (drop_Code raw))) energy_columns)
      eqn:Hfind; [discriminate|].
    apply (find_none _ _ Hfind) in Hl. apply negb_false_iff, has_column_In in Hl.
    rewrite labels_drop in Hl. apply filter_In in Hl. tauto. }
  assert (Hdf2 : labels df2 = labels (drop_Code raw)).
  { rewrite fillna_columns_result in Hfill.
    - inversion Hfill. apply labels_fill.
    - intros l Hl. rewrite labels_drop. apply filter_In. split; [now apply Henergy|].
      simpl in Hl. destruct Hl as [<-|[<-|[<-|[<-|[]]]]]; reflexivity. }
  destruct (get_column "Year" df2) as [years|eY] eqn:HY.
  2:{ apply get_column_error in HY. subst eY.
      eexists. left. apply load_of_body_KeyError. exact Hbody. }
  apply get_column_In in HY. rewrite Hdf2, labels_drop in HY.
  apply filter_In in HY. destruct HY as [HY _].
  assert (Hentity : label = "Entity"%string).
  { unfold required_columns in Hreq.
    destruct Hreq as [<-|[<-|[<-|Hreq]]]; [contradiction | contradiction | reflexivity |].
    exfalso. apply Hnot. now apply Henergy. }
  destruct (mapM (astype_int float_to_int py_int) years) as [ints|eI] eqn:HI.
  2:{ destruct (mapM_astype_int_error years eI HI) as [msg ->].
      exists msg. right. split; [exact Hentity|].
      apply load_of_body_ValueError. exact Hbody. }
  destruct (get_column "Entity" (set_column "Year" ints df2)) as [ents|eE] eqn:HE.
  - exfalso. apply get_column_In in HE.
    rewrite labels_set_column, Hdf2, labels_drop in HE.
    apply filter_In in HE. apply Hnot. rewrite Hentity. tauto.
  - apply get_column_error in HE. subst eE.
    eexists. left. apply load_of_body_KeyError. exact Hbody.
Qed.

(** X2. When the frame has all the columns but a Year cell is missing, or is
    a string Python's [int] rejects, [load_data] raises [ValueError]: no
    frame is loaded with a row whose year is unknown. *)
Theorem load_data_bad_year (filepath text : string) (raw : DataFrame V)
        (years : list (cell V)) (c : cell V) :
  file_system filepath = Some text -> parse_csv text = Ok raw ->
  (forall label, In label required_columns -> In label (labels raw)) ->
  get_column "Year" raw = Ok years ->
  In c years ->
  c = NaN \/ (exists s, c = StrCell s /\ py_int s = None) ->
  exists msg,
    load_data float_to_int float_repr py_int file_system parse_csv filepath
    = Err (ValueError msg).
Proof.
  intros Hfs Hparse Hall Hyears Hin Hbad.
  pose proof (load_data_body_parsed filepath text raw Hfs Hparse) as Hbody.
  unfold drop in Hbody.
  assert (Hcode : has_column "Code" raw = true).
  { apply has_column_In, Hall. now left. }
  rewrite Hcode in Hbody. cbv beta iota delta [bind] in Hbody.
  rewrite fillna_columns_result in Hbody.
  2:{ intros l Hl. rewrite labels_drop. apply filter_In. split.
      - apply Hall. unfold required_columns. now do 3 right.
      - simpl in Hl. destruct Hl as [<-|[<-|[<-|[<-|[]]]]]; reflexivity. }
  rewrite get_column_fill_other, get_column_drop_Code, Hyears in Hbody
    by reflexivity.
  assert (Hc : exists e, astype_int float_to_int py_int c = Err e).
  { destruct Hbad as [-> | [s [-> Hs]]]; simpl; [eauto|]. rewrite Hs. eauto. }
  destruct Hc as [e He].
  destruct (mapM_astype_int_fails years c e Hin He) as [msg Hmsg].
  rewrite Hmsg in Hbody. exists msg. apply load_of_body_ValueError. exact Hbody.
Qed.

(** X3. What [load_data] raises is never pandas' [ParserError], and a
    [FileNotFoundError] always carries the loader's own message, whatever
    path was asked for. *)
Theorem load_data_error_classes (filepath : string) (e : exn) :
  load_data float_to_int float_repr py_int file_system parse_csv filepath = Err e ->
  is_ParserError e = false
  /\ (is_FileNotFoundError e = true ->
      e = FileNotFoundError "The data file 'modern-renewable-prod.csv' was not found.").
Proof.
  unfold load_data, try_except.
  destruct (load_data_body float_to_int float_repr py_int file_system parse_csv filepath)
    as [df|e0]; [discriminate|].
  destruct e0; simpl; intros Herr; inversion Herr; subst; simpl;
    split; congruence.
Qed.

(** X4. Loading keeps the table's shape and leaves the other columns alone:
    when every column of the parsed frame has [n] cells, so has every column
    of the loaded frame, and a column that is not among those the loader
    reads by name is returned cell for cell. *)
Theorem load_data_keeps_shape (filepath text : string) (raw df : DataFrame V) (n : nat) :
  load_data float_to_int float_repr py_int file_system parse_csv filepath = Ok df ->
  file_system filepath = Some text -> parse_csv text = Ok raw ->
  Forall (fun c => List.length (snd c) = n) raw ->
  Forall (fun c => List.length (snd c) = n) df
  /\ forall label, ~ In label required_columns ->
                   get_column label df = get_column label raw.
Proof.
  intros Hload Hfs Hparse Hrect.
  apply load_data_Ok_iff in Hload.
  rewrite (load_data_body_parsed filepath text raw Hfs Hparse) in Hload.
  unfold drop in Hload.
  destruct (has_column "Code" raw); [|discriminate].
  cbv beta iota delta [bind] in Hload.
  destruct (fillna_columns energy_columns (drop_Code raw)) as [df2|] eqn:Hfill;
    [|discriminate].
  assert (Hdf2 : df2 = map fill (drop_Code raw)).
  { unfold fillna_columns in Hfill.
    destruct (find _ energy_columns); [discriminate|]. now inversion Hfill. }
  destruct (get_column "Year" df2) as [years|] eqn:HY; [|discriminate].
  destruct (mapM (astype_int float_to_int py_int) years) as [ints|] eqn:HI;
    [|discriminate].
  destruct (get_column "Entity" (set_column "Year" ints df2)) as [ents|] eqn:HE;
    [|discriminate].
  inversion Hload; subst df. clear Hload.
  assert (Hrect2 : Forall (fun c => List.length (snd c) = n) df2).
  { subst df2. rewrite Forall_forall in *. intros c Hc.
    apply in_map_iff in Hc. destruct Hc as [c0 [<- Hc0]].
    apply filter_In in Hc0. destruct Hc0 as [Hc0 _]. specialize (Hrect c0 Hc0).
    destruct (isin (fst c0) energy_columns); simpl; [now rewrite length_map | exact Hrect]. }
  assert (Hlen_column : forall label (d : DataFrame V) cells,
             Forall (fun c => List.length (snd c) = n) d ->
             get_column label d = Ok cells -> List.length cells = n).
  { intros label d cells Hd Hget. unfold get_column in Hget.
    destruct (find (fun c => String.eqb (fst c) label) d) as [c|] eqn:Hfind;
      [|discriminate].
    inversion Hget; subst. apply find_some in Hfind.
    rewrite Forall_forall in Hd. apply Hd. tauto. }
  assert (Hset : forall label cells (d : DataFrame V),
             List.length cells = n ->
             Forall (fun c => List.length (snd c) = n) d ->
             Forall (fun c => List.length (snd c) = n) (set_column label cells d)).
  { intros label cells d Hcells Hd. unfold set_column.
    rewrite Forall_forall in *. intros c Hc.
    apply in_map_iff in Hc. destruct Hc as [c0 [<- Hc0]].
    destruct (String.eqb (fst c0) label); simpl; [exact Hcells | now apply Hd]. }
  assert (Hints : List.length ints = n).
  { rewrite (mapM_length _ _ _ HI). exact (Hlen_column _ _ _ Hrect2 HY). }
  split.
  - apply Hset; [|now apply Hset].
    rewrite length_map. apply (Hlen_column "Entity"%string _ _ (Hset _ _ _ Hints Hrect2) HE).
  - intros label Hother.
    assert (Hne : String.eqb label "Code" = false
                  /\ String.eqb label "Year" = false
                  /\ String.eqb label "Entity" = false
                  /\ isin label energy_columns = false).
    { unfold required_columns in Hother. repeat apply conj.
      - apply String.eqb_neq. intros ->. apply Hother. now left.
      - apply String.eqb_neq. intros ->. apply Hother. now right; left.
      - apply String.eqb_neq. intros ->. apply Hother. now right; right; left.
      - destruct (isin label energy_columns) eqn:Hisin; [|reflexivity].
        exfalso. apply Hother. do 3 right.
        unfold isin in Hisin. apply existsb_exists in Hisin.
        destruct Hisin as [l [Hl Heq]]. apply String.eqb_eq in Heq. now subst. }
    destruct Hne as [HnC [HnY [HnE Hisin]]].
    rewrite !get_column_set_other by assumption. subst df2.
    now rewrite get_column_fill_other, get_column_drop_Code.
Qed.
End LoaderEdges.

(** Witness for X1: the sample file without its Code column. *)
Lemma load_data_missing_column_witness :
  exists msg,
    sample_load_from sample_frame_no_code "modern-renewable-prod.csv"
    = Err (KeyError msg)
    \/ ("Code"%string = "Entity"%string
        /\ sample_load_from sample_frame_no_code "modern-renewable-prod.csv"
           = Err (ValueError msg)).
Proof.
  apply (load_data_missing_column (fun v : Z => v) str_of_Z (fun _ => None)
           sample_file_system (fun _ => Ok sample_frame_no_code)
           "modern-renewable-prod.csv" "Entity,Code,Year,..."
           sample_frame_no_code "Code").
  - reflexivity.
  - reflexivity.
  - left. reflexivity.
  - vm_compute. intuition discriminate.
Defined.

(** Witness for X2: the sample file with a missing Year cell. *)
Lemma load_data_bad_year_witness :
  exists msg,
    sample_load_from sample_frame_bad_year "modern-renewable-prod.csv"
    = Err (ValueError msg).
Proof.
  apply (load_data_bad_year (fun v : Z => v) str_of_Z (fun _ => None)
           sample_file_system (fun _ => Ok sample_frame_bad_year)
           "modern-renewable-prod.csv" "Entity,Code,Year,..."
           sample_frame_bad_year [IntCell 2020; NaN] NaN).
  - reflexivity.
  - reflexivity.
  - intros label Hlabel. vm_compute in Hlabel. vm_compute. tauto.
  - reflexivity.
  - right. left. reflexivity.
  - left. reflexivity.
Defined.

(** Witness for X3: a path the sample file system does not have. *)
Lemma load_data_error_classes_witness :
  is_ParserError
    (FileNotFoundError "The data file 'modern-renewable-prod.csv' was not found.")
  = false
  /\ (is_FileNotFoundError
        (FileNotFoundError "The data file 'modern-renewable-prod.csv' was not found.")
      = true ->
      FileNotFoundError "The data file 'modern-renewable-prod.csv' was not found."
      = FileNotFoundError "The data file 'modern-renewable-prod.csv' was not found.").
Proof.
  apply (load_data_error_classes (fun v : Z => v) str_of_Z (fun _ => None)
           sample_file_system sample_parse_csv "missing.csv").
  reflexivity.
Defined.

(** Witness for X4: the sample file has two rows before and after loading. *)
Lemma load_data_keeps_shape_witness :
  exists df,
    sample_load_data "modern-renewable-prod.csv" = Ok df
    /\ Forall (fun c => List.length (snd c) = 2%nat) df.
Proof.
  destruct (sample_load_data "modern-renewable-prod.csv") as [df|e] eqn:Hload;
    [|vm_compute in Hload; discriminate Hload].
  exists df. split; [reflexivity|].
  apply (load_data_keeps_shape (fun v : Z => v) str_of_Z (fun _ => None)
           sample_file_system sample_parse_csv
           "modern-renewable-prod.csv" "Entity,Code,Year,..." sample_frame df 2%nat).
  - exact Hload.
  - reflexivity.
  - reflexivity.
  - repeat constructor.
Defined.

(* ================================================================== *)
(** * Further properties of startup *)
(* ================================================================== *)



(** X6. The working dataset is the loaded table restricted to the rows whose
    entity resolves, in the loaded order and each exactly as often as loaded,
    every row carrying the code of its entity; when every entity resolves no
    row is dropped. *)
Theorem working_dataset_keeps_resolved_rows {V : Type}
        (countries_db : string -> option string) (loaded : list (EnergyRecord V)) :
  exists energy_data,
    working_dataset countries_db loaded = Ok energy_data
    /\ map (fun r : Row V => record r) energy_data
       = filter (fun r => match countries_db (Entity r) with
                          | Some _ => true
                          | None => false
                          end) loaded
    /\ Forall (fun r : Row V => ISO_A3 r = countries_db (Entity r)) energy_data
    /\ (List.length energy_data <= List.length loaded)%nat
    /\ ((forall r, In r loaded -> countries_db (Entity r) <> None) ->
        map (fun r : Row V => record r) energy_data = loaded).
Proof.
  eexists. split; [apply working_dataset_total|].
  unfold dropna_ISO_A3.
  assert (Hmap : map (fun r : Row V => record r)
                     (filter (fun r : Row V => match ISO_A3 r with
                                               | Some _ => true
                                               | None => false
                                               end)
                             (map (fun r => {| record := r;
                                               ISO_A3 := countries_db (Entity r) |})
                                  loaded))
                 = filter (fun r => match countries_db (Entity r) with
                                    | Some _ => true
                                    | None => false
                                    end) loaded).
  { rewrite filter_map_swap, map_map. simpl. apply map_id. }
  repeat apply conj.
  - exact Hmap.
  - apply Forall_forall. intros r Hr. apply filter_In in Hr. destruct Hr as [Hr _].
    apply in_map_iff in Hr. destruct Hr as [r0 [<- _]]. reflexivity.
  - rewrite <- (length_map (fun r : Row V => record r)), Hmap. apply filter_length_le.
  - intros Hall. rewrite Hmap. apply filter_all. intros r Hr.
    specialize (Hall r Hr). destruct (countries_db (Entity r)); congruence.
Qed.

Section SortedKeys.
Context {K : Type} (leb : K -> K -> bool).
Hypothesis leb_total : forall a b, leb a b = true \/ leb b a = true.

Lemma insert_sorted_Sorted (k : K) (ks : list K) :
  Sorted (fun a b => leb a b = true) ks ->
  Sorted (fun a b => leb a b = true) (insert_sorted leb k ks).
Proof.
  induction 1 as [|h t Hs IH Hhd]; simpl.
  - repeat constructor.
  - destruct (leb k h) eqn:Hkh.
    + constructor; [now constructor | now constructor].
    + assert (Hhk : leb h k = true).
      { destruct (leb_total k h); [congruence | assumption]. }
      constructor; [exact IH|].
      destruct t as [|h' t']; simpl.
      * now constructor.
      * inversion Hhd; subst. destruct (leb k h'); now constructor.
Qed.

Lemma sort_keys_Sorted (ks : list K) :
  Sorted (fun a b => leb a b = true) (sort_keys leb ks).
Proof.
  induction ks as [|k ks IH]; simpl; [constructor | now apply insert_sorted_Sorted].
Qed.
End SortedKeys.

(** X7. The entity options of the dropdowns are the entity names of the
    loaded table: each name once, in ascending order, resolved by the country
    lookup or not. *)
Theorem energy_entities_sorted_distinct {V : Type} (loaded : list (EnergyRecord V)) :
  NoDup (energy_entities loaded)
  /\ Sorted (fun a b => String.leb a b = true) (energy_entities loaded)
  /\ (forall name, In name (energy_entities loaded)
                   <-> exists r, In r loaded /\ Entity r = name).
Proof.
  unfold energy_entities. repeat apply conj.
  - apply unique_keys_NoDup.
  - apply sort_keys_Sorted, String.leb_total.
  - intros name. rewrite unique_keys_In, in_map_iff.
    split; intros [r Hr]; exists r; tauto.
Qed.

Section RangeFacts.

Lemma range_In (start stop y : Z) : In y (range start stop) <-> start <= y < stop.
Proof.
  unfold range. rewrite in_map_iff. split.
  - intros [i [<- Hi]]. apply in_seq in Hi. lia.
  - intros Hy. exists (Z.to_nat (y - start)). split; [lia|].
    apply in_seq. lia.
Qed.

Lemma range_sorted (start stop : Z) : StronglySorted Z.lt (range start stop).
Proof.
  unfold range. generalize (Z.to_nat (stop - start)) as n. intros n.
  generalize 0%nat as i. induction n as [|n IH]; intros i; simpl; constructor.
  - apply IH.
  - apply Forall_forall. intros y Hy. apply in_map_iff in Hy.
    destruct Hy as [j [<- Hj]]. apply in_seq in Hj. lia.
Qed.

Lemma fold_left_min_le (l : list Z) (a : Z) :
  fold_left Z.min l a <= a /\ forall x, In x l -> fold_left Z.min l a <= x.
Proof.
  revert a. induction l as [|y l IH]; intros a; simpl.
  - split; [lia | tauto].
  - destruct (IH (Z.min a y)) as [Hle Hall]. split; [lia|].
    intros x [<- | Hx]; [lia | now apply Hall].
Qed.

Lemma fold_left_min_In (l : list Z) (a : Z) :
  fold_left Z.min l a = a \/ In (fold_left Z.min l a) l.
Proof.
  revert a. induction l as [|y l IH]; intros a; simpl; [now left|].
  destruct (IH (Z.min a y)) as [Heq | Hin]; [|now right; right].
  rewrite Heq. destruct (Z.min_spec a y) as [[_ ->] | [_ ->]]; auto.
Qed.
End RangeFacts.

Lemma energy_year_bounds {V : Type} (loaded : list (EnergyRecord V)) (lo hi : Z) :
  energy_year_min loaded = Some lo -> energy_year_max loaded = Some hi ->
  (forall r, In r loaded -> lo <= Year r <= hi)
  /\ (exists r, In r loaded /\ Year r = lo)
  /\ (exists r, In r loaded /\ Year r = hi).
Proof.
  destruct loaded as [|r0 rest]; [discriminate|]. simpl.
  intros Hlo Hhi. inversion Hlo as [Hlo']. inversion Hhi as [Hhi']. clear Hlo Hhi.
  set (ys := map (fun x : EnergyRecord V => Year x) rest) in *.
  destruct (fold_left_min_le ys (Year r0)) as [Hmin0 Hmin].
  destruct (fold_left_max_ge ys (Year r0)) as [Hmax0 Hmax].
  repeat apply conj.
  - intros r [<- | Hr]; [lia|].
    assert (In (Year r) ys) by (now apply (in_map (fun x : EnergyRecord V => Year x))).
    specialize (Hmin _ H). specialize (Hmax _ H). lia.
  - destruct (fold_left_min_In ys (Year r0)) as [Heq | Hin].
    + exists r0. split; [now left | congruence].
    + apply in_map_iff in Hin. destruct Hin as [r [Hr Hin]].
      exists r. split; [now right | congruence].
  - destruct (fold_left_max_In ys (Year r0)) as [Heq | Hin].
    + exists r0. split; [now left | congruence].
    + apply in_map_iff in Hin. destruct Hin as [r [Hr Hin]].
      exists r. split; [now right | congruence].
Qed.

Lemma precompute_year_marks_bounds {V : Type} (loaded : list (EnergyRecord V))
      (pre : Precomputed) :
  precompute loaded = Ok pre ->
  forall r, In r loaded -> year_min pre <= Year r <= year_max_ pre.
Proof.
  unfold precompute.
  destruct (energy_year_min loaded) as [lo|] eqn:Hlo; [|discriminate].
  destruct (energy_year_max loaded) as [hi|] eqn:Hhi; [|discriminate].
  intros Hpre. inversion Hpre; subst. simpl.
  apply (energy_year_bounds loaded lo hi Hlo Hhi).
Qed.

(** X8. On a loaded table with at least one row the widget data is computed:
    the year bounds are the smallest and the largest year of the table, and
    the slider marks are the years from the smallest to the largest, each
    once, in ascending order and labelled with its decimal form, so every
    year of the table has its mark.  On a table without rows the computation
    raises [TypeError] and there is no dashboard. *)
Theorem precompute_year_marks {V : Type} (loaded : list (EnergyRecord V)) :
  match precompute loaded with
  | Ok pre =>
      loaded <> []
      /\ entities pre = energy_entities loaded
      /\ (forall r, In r loaded -> year_min pre <= Year r <= year_max_ pre)
      /\ (exists r, In r loaded /\ Year r = year_min pre)
      /\ (exists r, In r loaded /\ Year r = year_max_ pre)
      /\ StronglySorted Z.lt (map fst (year_marks pre))
      /\ (forall y label, In (y, label) (year_marks pre)
                          <-> year_min pre <= y <= year_max_ pre
                              /\ label = str_of_Z y)
  | Err e =>
      loaded = []
      /\ e = OtherException "TypeError"
                            "'float' object cannot be interpreted as an integer"
  end.
Proof.
  unfold precompute.
  destruct (energy_year_min loaded) as [lo|] eqn:Hlo;
    destruct (energy_year_max loaded) as [hi|] eqn:Hhi;
    try (destruct loaded; [now split | discriminate]).
  destruct (energy_year_bounds loaded lo hi Hlo Hhi) as [Hall [Hmin Hmax]].
  simpl. repeat apply conj; try assumption; try reflexivity.
  - intros ->. discriminate.
  - rewrite map_map. simpl. rewrite map_id. apply range_sorted.
  - intros y label. rewrite in_map_iff. split.
    + intros [y' [Heq Hin]]. inversion Heq; subst. apply range_In in Hin.
      split; [lia | reflexivity].
    + intros [Hy ->]. exists y. split; [reflexivity|]. apply range_In. lia.
Qed.

(* ================================================================== *)
(** * Further properties of the views *)
(* ================================================================== *)

Lemma working_dataset_rows {V : Type} (countries_db : string -> option string)
      (loaded : list (EnergyRecord V)) (energy_data : list (Row V)) (r : Row V) :
  working_dataset countries_db loaded = Ok energy_data ->
  In r energy_data ->
  In (record r) loaded /\ countries_db (Entity r) <> None.
Proof.
  intros Hws Hin. rewrite working_dataset_total in Hws. inversion Hws; subst.
  apply working_dataset_In in Hin. tauto.
Qed.

(** X9. With the year controls at their widest the year filter removes
    nothing: the Search mask for the slider's full range, and the Energy
    Types area mask for the largest year, select every row of the chosen
    entities. *)
Theorem widest_year_selection_filters_nothing {V : Type}
        (countries_db : string -> option string) (loaded : list (EnergyRecord V))
        (pre : Precomputed) (energy_data : list (Row V)) :
  precompute loaded = Ok pre ->
  working_dataset countries_db loaded = Ok energy_data ->
  (forall regions,
      search_filtered energy_data (year_min pre) (year_max_ pre) regions
      = filterByEntities energy_data regions)
  /\ (forall entities,
         energy_types_cumulative energy_data (year_max_ pre) entities
         = filterByEntities energy_data entities).
Proof.
  intros Hpre Hws.
  assert (Hbounds : forall r, In r energy_data ->
                              year_min pre <= Year r <= year_max_ pre).
  { intros r Hr. destruct (working_dataset_rows _ _ _ _ Hws Hr) as [Hin _].
    pose proof (precompute_year_marks_bounds loaded pre Hpre) as Hall.
    now apply Hall. }
  split; intros sel; unfold search_filtered, energy_types_cumulative, filterByEntities;
    apply filter_ext_in; intros r Hr; specialize (Hbounds r Hr).
  - replace (year_min pre <=? Year r) with true by (symmetry; apply Z.leb_le; lia).
    replace (Year r <=? year_max_ pre) with true by (symmetry; apply Z.leb_le; lia).
    reflexivity.
  - replace (Year r <=? year_max_ pre) with true by (symmetry; apply Z.leb_le; lia).
    reflexivity.
Qed.

(** Witness for X9: the sample table. *)
Lemma widest_year_selection_filters_nothing_witness :
  exists pre energy_data,
    precompute sample_loaded = Ok pre
    /\ working_dataset sample_db sample_loaded = Ok energy_data
    /\ search_filtered energy_data (year_min pre) (year_max_ pre) ["Tunisia"%string]
       = filterByEntities energy_data ["Tunisia"%string].
Proof.
  do 2 eexists. split; [reflexivity|]. split; [reflexivity|].
  apply (widest_year_selection_filters_nothing sample_db sample_loaded);
    reflexivity.
Defined.

(** X10. Whichever section [render_content] shows, the initial values it
    gives the section's widgets pass the selection guard of the section's
    callback: the Worldwide callback returns the map, and the Energy Types
    and Search callbacks return figures that are not the "please select"
    placeholder; none of them raises. *)
Theorem initial_values_pass_selection_guards {V : Type} `{Quantity V}
        (energy_data : list (Row V)) (pre : Precomputed)
        (btn_worldwide btn_energy_types btn_search : Z) (triggered : list string) :
  let content :=
    render_content pre btn_worldwide btn_energy_types btn_search triggered in
  (forall options value,
      content = WorldwideSection options value ->
      update_worldwide_map energy_data (Some value)
      = Return (create_worldwide_map energy_data value))
  /\ (forall year_options year entity_options selection,
         content = EnergyTypesSection year_options year entity_options selection ->
         exists figs,
           update_energy_types energy_data (Some year) (Some selection) = Return figs
           /\ figs <> (EmptyFigure select_year_and_entity,
                       EmptyFigure select_year_and_entity,
                       EmptyFigure select_year_and_entity))
  /\ (forall lo hi year_range marks region_options regions options energy_type,
         content = SearchSection lo hi year_range marks region_options regions
                                 options energy_type ->
         exists figs,
           update_search_section energy_data year_range (Some regions)
                                 (Some energy_type) = Return figs
           /\ figs <> (EmptyFigure select_region_and_type,
                       EmptyFigure select_region_and_type,
                       EmptyFigure select_region_and_type,
                       EmptyFigure select_region_and_type)).
Proof.
  intros content. unfold content, render_content.
  destruct triggered as [|prop_id rest].
  { repeat apply conj; intros; discriminate. }
  cbv zeta.
  destruct (String.eqb (before_dot prop_id) "btn-worldwide").
  { repeat apply conj; intros; try discriminate. reflexivity. }
  destruct (String.eqb (before_dot prop_id) "btn-energy-types").
  { repeat apply conj; intros; try discriminate.
    match goal with Heq : EnergyTypesSection _ _ _ _ = _ |- _ => inversion Heq; subst end.
    unfold update_energy_types. cbn [not_ selected].
    destruct (empty _); eexists; (split; [reflexivity | discriminate]). }
  destruct (String.eqb (before_dot prop_id) "btn-search").
  { repeat apply conj; intros; try discriminate.
    match goal with Heq : SearchSection _ _ _ _ _ _ _ _ = _ |- _ => inversion Heq; subst end.
    unfold update_search_section. cbn [not_ selected getitem nth_error].
    destruct (empty _); eexists; (split; [reflexivity | discriminate]). }
  repeat apply conj; intros; discriminate.
Qed.

(** Witness for X10: the Search button on the sample table. *)
Lemma initial_values_pass_selection_guards_witness :
  exists figs,
    update_search_section tunisia_rows [2020; 2021] (Some ["Tunisia"%string])
                          (Some WindPower) = Return figs
    /\ figs <> (EmptyFigure select_region_and_type,
                EmptyFigure select_region_and_type,
                EmptyFigure select_region_and_type,
                EmptyFigure select_region_and_type).
Proof.
  apply (proj2 (proj2 (initial_values_pass_selection_guards
                         tunisia_rows
                         {| entities := ["Tunisia"%string]; year_min := 2020;
                            year_max_ := 2021; year_marks := [] |}
                         0 0 1 ["btn-search.n_clicks"%string]))
           2020 2021 [2020; 2021] [] ["Tunisia"%string] ["Tunisia"%string]
           energy_types WindPower).
  reflexivity.
Defined.

(** X11. An entity the country lookup does not find has no rows in the
    working dataset, so a selection made only of such entities shows the
    "no data" placeholders in the Energy Types view for every year and in the
    Search view for every year range and energy type. *)
Theorem unresolved_selection_shows_no_data {V : Type} `{Quantity V}
        (countries_db : string -> option string) (loaded : list (EnergyRecord V))
        (energy_data : list (Row V)) (selection : list string) :
  working_dataset countries_db loaded = Ok energy_data ->
  selection <> [] ->
  (forall name, In name selection -> countries_db name = None) ->
  (forall year,
      update_energy_types energy_data (Some year) (Some selection)
      = Return (EmptyFigure no_data_year_entities,
                EmptyFigure no_data_year_entities,
                EmptyFigure no_data_year_entities))
  /\ (forall lo hi more energy_type,
         update_search_section energy_data (lo :: hi :: more) (Some selection)
                               (Some energy_type)
         = Return (EmptyFigure no_data_filters,
                   EmptyFigure no_data_filters,
                   EmptyFigure no_data_filters,
                   EmptyFigure no_data_filters)).
Proof.
  intros Hws Hsel Hnone.
  assert (Hout : forall r, In r energy_data -> isin (Entity r) selection = false).
  { intros r Hr. destruct (working_dataset_rows _ _ _ _ Hws Hr) as [_ Hsome].
    destruct (isin (Entity r) selection) eqn:Hisin; [|reflexivity].
    exfalso. apply Hsome. unfold isin in Hisin. apply existsb_exists in Hisin.
    destruct Hisin as [name [Hname Heq]]. apply String.eqb_eq in Heq. subst name.
    now apply Hnone. }
  assert (Hnot : not_ (Some selection) = false).
  { destruct selection; [congruence | reflexivity]. }
  split.
  - intros year. unfold update_energy_types. rewrite Hnot. cbn [selected].
    unfold energy_types_filtered. rewrite filter_none; [reflexivity|].
    intros r Hr. rewrite (Hout r Hr). apply andb_false_r.
  - intros lo hi more t. unfold update_search_section. rewrite Hnot.
    cbn [selected getitem nth_error]. unfold search_filtered.
    rewrite filter_none; [reflexivity|].
    intros r Hr. rewrite (Hout r Hr). apply andb_false_r.
Qed.

(** Witness for X11: "World" on the sample table. *)
Lemma unresolved_selection_shows_no_data_witness :
  exists energy_data,
    working_dataset sample_db sample_loaded = Ok energy_data
    /\ update_energy_types energy_data (Some 2020) (Some ["World"%string])
       = Return (EmptyFigure no_data_year_entities,
                 EmptyFigure no_data_year_entities,
                 EmptyFigure no_data_year_entities).
Proof.
  destruct (working_dataset sample_db sample_loaded) as [energy_data|e] eqn:Hws;
    [|vm_compute in Hws; discriminate Hws].
  exists energy_data. split; [reflexivity|].
  refine (proj1 (unresolved_selection_shows_no_data
                   sample_db sample_loaded energy_data ["World"%string] Hws _ _) 2020).
  - discriminate.
  - intros name [<-|[]]. reflexivity.
Defined.

(** X12. With regions and an energy type selected, the Search callback
    raises [IndexError] when the year range has fewer than two entries, and
    shows the "no data" placeholders when the range is inverted. *)
Theorem search_year_range_bounds {V : Type} `{Quantity V}
        (energy_data : list (Row V)) (regions : option (list string))
        (energy_type : EnergyType) :
  not_ regions = false ->
  (forall year_range,
      (List.length year_range < 2)%nat ->
      update_search_section energy_data year_range regions (Some energy_type)
      = Raise (IndexError "list index out of range"))
  /\ (forall lo hi more,
         hi < lo ->
         update_search_section energy_data (lo :: hi :: more) regions
                               (Some energy_type)
         = Return (EmptyFigure no_data_filters,
                   EmptyFigure no_data_filters,
                   EmptyFigure no_data_filters,
                   EmptyFigure no_data_filters)).
Proof.
  intros Hsel. split.
  - intros yr Hlen. unfold update_search_section. rewrite Hsel.
    destruct yr as [|lo [|hi more]]; simpl in Hlen; [reflexivity | reflexivity | lia].
  - intros lo hi more Hinv. unfold update_search_section. rewrite Hsel.
    cbn [getitem nth_error]. unfold search_filtered.
    rewrite filter_none; [reflexivity|].
    intros r _. destruct (Z.leb_spec lo (Year r)), (Z.leb_spec (Year r) hi);
      simpl; try reflexivity. lia.
Qed.

(** Witness for X12: an empty year range. *)
Lemma search_year_range_bounds_witness :
  update_search_section tunisia_rows [] (Some ["Tunisia"%string]) (Some WindPower)
  = Raise (IndexError "list index out of range").
Proof.
  apply (proj1 (search_year_range_bounds tunisia_rows (Some ["Tunisia"%string])
                                         WindPower eq_refl)).
  simpl. lia.
Defined.

(* ================================================================== *)
(** * Further properties of the aggregations *)
(* ================================================================== *)

Section MoreAggregation.
Context {V : Type} `{Quantity V}.

Lemma cumsum_rows_from_index (acc : Totals V) (l : list (Z * Totals V)) :
  map fst (cumsum_rows_from acc l) = map fst l.
Proof.
  revert acc. induction l as [|[y t] rest IH]; intros acc; simpl; [reflexivity|].
  now rewrite IH.
Qed.

Lemma at_year_map {X : Type} (F : Z -> X) (ks : list Z) (Y : Z) :
  at_year Y (map (fun y => (y, F y)) ks)
  = if existsb (fun y => y =? Y) ks then Some (F Y) else None.
Proof.
  unfold at_year. induction ks as [|k ks IH]; simpl; [reflexivity|].
  destruct (Z.eqb_spec k Y) as [->|Hneq]; simpl; [reflexivity | exact IH].
Qed.




Lemma NoDup_map_on {A B : Type} (f : A -> B) (l : list A) :
  NoDup l ->
  (forall a b, In a l -> In b l -> f a = f b -> a = b) ->
  NoDup (map f l).
Proof.
  induction 1 as [|x l Hnotin Hnd IH]; intros Hinj; simpl; constructor.
  - intros Hin. apply in_map_iff in Hin. destruct Hin as [y [Hfy Hy]].
    apply Hnotin. rewrite (Hinj x y); auto; [now left | now right].
  - apply IH. intros a b Ha Hb. apply Hinj; now right.
Qed.

Lemma key_is_unique (k1 k2 : string * string) (r : Row V) :
  key_is k1 r = true -> key_is k2 r = true -> k1 = k2.
Proof.
  unfold key_is. destruct (entity_iso_key r) as [k|]; [|discriminate].
  destruct (pair_eq_dec k k1), (pair_eq_dec k k2); congruence.
Qed.


Lemma search_pie_data_total (filtered_df : list (Row V)) (t : EnergyType) :
  qsum (map snd (search_pie_data filtered_df t)) = qsum (map (column t) filtered_df).
Proof.
  unfold search_pie_data. rewrite map_map. simpl.
  apply (qsum_groups_total (column t) (fun e (r : Row V) => String.eqb (Entity r) e)).
  - intros e1 e2 r H1 H2. apply String.eqb_eq in H1, H2. congruence.
  - apply unique_keys_NoDup.
  - intros r Hr. exists (Entity r). split; [|apply String.eqb_refl].
    apply unique_keys_In. now apply (in_map (fun r : Row V => Entity r)).
Qed.

(** X13. The Search pie has one slice per entity that has a row in the
    filtered table: the names are pairwise different and in ascending order,
    each value is the sum of the selected column over that entity's rows, and
    the slices add up to the column's sum over the whole filtered table.  In
    the callback every slice is one of the selected regions. *)
Theorem search_pie_one_slice_per_region (filtered_df : list (Row V)) (t : EnergyType) :
  NoDup (map fst (search_pie_data filtered_df t))
  /\ Sorted (fun a b => String.leb a b = true) (map fst (search_pie_data filtered_df t))
  /\ (forall name, In name (map fst (search_pie_data filtered_df t))
                   <-> exists r, In r filtered_df /\ Entity r = name)
  /\ (forall name v,
         In (name, v) (search_pie_data filtered_df t) ->
         v = qsum (map (column t)
                       (filter (fun r : Row V => String.eqb (Entity r) name)
                               filtered_df)))
  /\ qsum (map snd (search_pie_data filtered_df t))
     = qsum (map (column t) filtered_df)
  /\ (forall energy_data lo hi regions name,
         In name (map fst (search_pie_data (search_filtered energy_data lo hi regions) t)) ->
         In name regions).
Proof.
  assert (Hnames : forall df : list (Row V),
             map fst (search_pie_data df t)
             = unique_keys string_dec String.leb (map (fun r : Row V => Entity r) df)).
  { intros df. unfold search_pie_data. rewrite map_map. simpl. apply map_id. }
  assert (Hmem : forall (df : list (Row V)) name,
             In name (map fst (search_pie_data df t))
             <-> exists r, In r df /\ Entity r = name).
  { intros df name. rewrite Hnames, unique_keys_In, in_map_iff.
    split; intros [r Hr]; exists r; tauto. }
  repeat apply conj.
  - rewrite Hnames. apply unique_keys_NoDup.
  - rewrite Hnames. apply sort_keys_Sorted, String.leb_total.
  - apply Hmem.
  - intros name v Hin. unfold search_pie_data in Hin. apply in_map_iff in Hin.
    destruct Hin as [e [Heq _]]. now inversion Heq.
  - apply search_pie_data_total.
  - intros energy_data lo hi regions name Hin. apply Hmem in Hin.
    destruct Hin as [r [Hr <-]]. unfold search_filtered in Hr.
    apply filter_In in Hr. destruct Hr as [_ Hr].
    apply andb_true_iff in Hr. destruct Hr as [_ Hr].
    unfold isin in Hr. apply existsb_exists in Hr.
    destruct Hr as [e [He Heq]]. apply String.eqb_eq in Heq. now subst.
Qed.

End MoreAggregation.


Section MapAndArea.
Context {V : Type} `{Quantity V}.

(** X15. On the working dataset the world map shows every entity of the
    latest year once (no two rows share an entity), and the values of its
    rows add up to the sum of the selected column over all rows of the latest
    year; on an empty dataset the map has no rows. *)
Theorem worldwide_map_totals (countries_db : string -> option string)
        (loaded : list (EnergyRecord V)) (energy_data : list (Row V))
        (energy_type : EnergyType) :
  working_dataset countries_db loaded = Ok energy_data ->
  NoDup (map (fun x => fst (fst x)) (latestYearByEntity energy_data energy_type))
  /\ (forall name,
         In name (map (fun x => fst (fst x)) (latestYearByEntity energy_data energy_type))
         <-> exists r latest_year,
             year_max energy_data = Some latest_year
             /\ In r energy_data /\ Year r = latest_year /\ Entity r = name)
  /\ (forall latest_year,
         year_max energy_data = Some latest_year ->
         qsum (map snd (latestYearByEntity energy_data energy_type))
         = qsum (map (column energy_type) (filterByYear energy_data latest_year)))
  /\ (energy_data = [] -> latestYearByEntity energy_data energy_type = []).
Proof.
  intros Hws.
  assert (Hiso : forall r, In r energy_data ->
                           ISO_A3 r = countries_db (Entity r)
                           /\ countries_db (Entity r) <> None).
  { intros r Hr. rewrite working_dataset_total in Hws. inversion Hws; subst.
    apply working_dataset_In in Hr. tauto. }
  set (map_data := match year_max energy_data with
                   | Some latest_year => filterByYear energy_data latest_year
                   | None => []
                   end).
  assert (Hsub : forall r, In r map_data -> In r energy_data).
  { intros r Hr. unfold map_data in Hr. destruct (year_max energy_data);
      [|contradiction]. unfold filterByYear in Hr. apply filter_In in Hr. tauto. }
  assert (Hkey : forall r, In r map_data ->
                           exists c, entity_iso_key r = Some (Entity r, c)
                                     /\ countries_db (Entity r) = Some c).
  { intros r Hr. destruct (Hiso r (Hsub r Hr)) as [Heq Hsome].
    unfold entity_iso_key. rewrite Heq.
    destruct (countries_db (Entity r)) as [c|]; [eauto | congruence]. }
  assert (Hkeys : map fst (latestYearByEntity energy_data energy_type)
                  = unique_keys pair_eq_dec pair_leb (present_keys map_data)).
  { unfold latestYearByEntity, groupby_Entity_ISO_sum. cbv zeta. fold map_data.
    rewrite map_map. simpl. apply map_id. }
  assert (Hnames : map (fun x => fst (fst x)) (latestYearByEntity energy_data energy_type)
                   = map fst (unique_keys pair_eq_dec pair_leb (present_keys map_data))).
  { rewrite <- Hkeys, map_map. reflexivity. }
  assert (Hpresent : forall k, In k (present_keys map_data) ->
                               countries_db (fst k) = Some (snd k)
                               /\ exists r, In r map_data /\ Entity r = fst k).
  { intros k Hk. apply present_keys_In in Hk. destruct Hk as [r [Hr Hk]].
    destruct (Hkey r Hr) as [c [Hc Hdb]]. rewrite Hc in Hk. inversion Hk; subst.
    simpl. split; [exact Hdb | eauto]. }
  repeat apply conj.
  - rewrite Hnames. apply NoDup_map_on; [apply unique_keys_NoDup|].
    intros [e1 c1] [e2 c2] H1 H2 Heq. simpl in Heq. subst e2.
    apply unique_keys_In, Hpresent in H1. apply unique_keys_In, Hpresent in H2.
    simpl in H1, H2. destruct H1 as [H1 _], H2 as [H2 _]. congruence.
  - intros name. rewrite Hnames, in_map_iff. split.
    + intros [k [<- Hk]]. apply unique_keys_In, Hpresent in Hk.
      destruct Hk as [_ [r [Hr He]]]. unfold map_data in Hr.
      destruct (year_max energy_data) as [latest|] eqn:Hmax; [|contradiction].
      unfold filterByYear in Hr. apply filter_In in Hr. destruct Hr as [Hin Hy].
      exists r, latest. repeat split; [assumption | lia | assumption].
    + intros [r [latest [Hmax [Hin [Hy He]]]]].
      assert (Hr : In r map_data).
      { unfold map_data. rewrite Hmax. unfold filterByYear. apply filter_In.
        split; [assumption | lia]. }
      destruct (Hkey r Hr) as [c [Hc _]].
      exists (Entity r, c). split; [exact He|].
      apply unique_keys_In, present_keys_In. eauto.
  - intros latest Hmax. unfold latestYearByEntity, groupby_Entity_ISO_sum.
    cbv zeta. fold map_data. rewrite map_map. simpl.
    assert (Hmd : map_data = filterByYear energy_data latest)
      by (unfold map_data; now rewrite Hmax).
    rewrite <- Hmd.
    apply (qsum_groups_total (column energy_type) key_is).
    + apply key_is_unique.
    + apply unique_keys_NoDup.
    + intros r Hr. destruct (Hkey r Hr) as [c [Hc _]].
      exists (Entity r, c). split.
      * apply unique_keys_In, present_keys_In. eauto.
      * apply key_is_spec. split; [reflexivity|].
        unfold entity_iso_key in Hc. destruct (ISO_A3 r); congruence.
  - intros ->. reflexivity.
Qed.

(** X16. The area table has one row per year of its input, the years in
    strictly ascending order, and the cumulative table has the same years as
    the annual one. *)
Theorem sumByYear_one_row_per_year (rows : list (Row V)) (cumulative : bool) :
  StronglySorted Z.lt (map fst (sumByYear rows cumulative))
  /\ (forall Y, In Y (map fst (sumByYear rows cumulative))
                <-> exists r, In r rows /\ Year r = Y)
  /\ map fst (sumByYear rows true) = map fst (sumByYear rows false).
Proof.
  assert (Hyears : forall c, map fst (sumByYear rows c)
                             = unique_keys Z.eq_dec Z.leb
                                           (map (fun r : Row V => Year r) rows)).
  { intros c. unfold sumByYear, reset_index, cumsum_indexed. destruct c.
    - cbn [index_rows]. rewrite cumsum_rows_from_index. apply groupby_Year_sum_index.
    - apply groupby_Year_sum_index. }
  repeat apply conj.
  - rewrite Hyears. apply unique_years_sorted.
  - intros Y. rewrite Hyears, unique_keys_In, in_map_iff.
    split; intros [r Hr]; exists r; tauto.
  - now rewrite !Hyears.
Qed.

(** X17. Without accumulation the area table holds, at each year of its
    input, the sums of the four energy columns over the rows of that year,
    and it has no row at any other year. *)
Theorem sumByYear_annual_at_year (rows : list (Row V)) (Y : Z) :
  at_year Y (sumByYear rows false)
  = if has_year Y rows
    then Some (sum_columns (filterByYear rows Y))
    else None.
Proof.
  rewrite sumByYear_annual_table.
  rewrite (at_year_map (fun y => sum_columns (filterByYear rows y))).
  now rewrite has_year_keys.
Qed.

(** X18. With accumulation the area table holds at each year [Y] of its
    input, in every column, the sum of that column over all input rows with
    year at most [Y], which is the sum of the annual rows up to [Y]; at the
    latest year it is the sum over the whole input.  It has no row at a year
    the input does not have. *)
Theorem sumByYear_cumulative_is_running_total (rows : list (Row V)) (Y : Z)
        (t : EnergyType) :
  at_year Y (sumByYear rows true)
  = (if has_year Y rows then Some (sum_up_to Y (sumByYear rows false)) else None)
  /\ option_map (total t) (at_year Y (sumByYear rows true))
     = (if has_year Y rows
        then Some (qsum (map (column t) (filterUpToYear rows Y)))
        else None)
  /\ (forall latest_year,
         year_max rows = Some latest_year ->
         option_map (total t) (at_year latest_year (sumByYear rows true))
         = Some (qsum (map (column t) rows))).
Proof.
  repeat apply conj.
  - apply sumByYear_cumulative_at_year.
  - apply sumByYear_cumulative_rows.
  - intros latest Hmax.
    assert (Hne : rows <> []) by (intros ->; discriminate).
    destruct (year_max_spec rows Hne) as [latest' [Hmax' [[r [Hr Hy]] Hub]]].
    assert (Heq : latest = latest') by congruence.
    rewrite Heq. clear Heq Hmax latest.
    rewrite sumByYear_cumulative_rows.
    assert (Hhas : has_year latest' rows = true).
    { unfold has_year. apply existsb_exists. exists r. split; [assumption|].
      now apply Z.eqb_eq. }
    rewrite Hhas. do 3 f_equal. unfold filterUpToYear. apply filter_all.
    intros x Hx. apply Z.leb_le. now apply Hub.
Qed.
End MapAndArea.

(** Witness for X15: the sample table, where "World" is dropped. *)
Lemma worldwide_map_totals_witness :
  exists energy_data,
    working_dataset sample_db sample_loaded = Ok energy_data
    /\ NoDup (map (fun x => fst (fst x)) (latestYearByEntity energy_data WindPower)).
Proof.
  destruct (working_dataset sample_db sample_loaded) as [energy_data|e] eqn:Hws;
    [|vm_compute in Hws; discriminate Hws].
  exists energy_data. split; [reflexivity|].
  exact (proj1 (worldwide_map_totals sample_db sample_loaded energy_data
                                     WindPower Hws)).
Defined.

(** X19. After a successful start the Energy Types and Search sections offer
    the loaded table: whatever property of the section button fired and
    whatever else is listed as triggered after it, the entity options are the
    table's entities, every year of the table is a year option and lies in
    the slider's range with its mark, the initial year is the latest year of
    the table and the initial range is the whole span. *)
Theorem sections_offer_the_loaded_data {V : Type} (loaded : list (EnergyRecord V))
        (pre : Precomputed) (btn_worldwide btn_energy_types btn_search : Z)
        (prop : string) (rest : list string) :
  precompute loaded = Ok pre ->
  (exists year_options year,
      render_content pre btn_worldwide btn_energy_types btn_search
                     (("btn-energy-types." ++ prop)%string :: rest)
      = EnergyTypesSection year_options year (energy_entities loaded)
                           ["Tunisia"%string]
      /\ (forall r, In r loaded -> In (Year r) year_options /\ Year r <= year)
      /\ In year year_options
      /\ (exists r, In r loaded /\ Year r = year))
  /\ (exists lo hi marks,
         render_content pre btn_worldwide btn_energy_types btn_search
                        (("btn-search." ++ prop)%string :: rest)
         = SearchSection lo hi [lo; hi] marks (energy_entities loaded)
                         ["Tunisia"%string] energy_types WindPower
         /\ (forall r, In r loaded ->
                       lo <= Year r <= hi /\ In (Year r, str_of_Z (Year r)) marks)).
Proof.
  intros Hpre.
  pose proof (precompute_year_marks_bounds loaded pre Hpre) as Hbounds.
  unfold precompute in Hpre.
  destruct (energy_year_min loaded) as [lo|] eqn:Hlo; [|discriminate].
  destruct (energy_year_max loaded) as [hi|] eqn:Hhi; [|discriminate].
  destruct (energy_year_bounds loaded lo hi Hlo Hhi) as [_ [_ Hmax]].
  inversion Hpre; subst pre. clear Hpre. cbn [year_min year_max_] in Hbounds.
  split.
  - exists (range lo (hi + 1)), hi. repeat apply conj.
    + reflexivity.
    + intros r Hr. specialize (Hbounds r Hr). split; [|lia].
      apply range_In. lia.
    + apply range_In. destruct Hmax as [r [Hr Hy]]. specialize (Hbounds r Hr). lia.
    + exact Hmax.
  - exists lo, hi, (map (fun year => (year, str_of_Z year)) (range lo (hi + 1))).
    split; [reflexivity|].
    intros r Hr. specialize (Hbounds r Hr). split; [exact Hbounds|].
    apply in_map_iff. exists (Year r). split; [reflexivity|].
    apply range_In. lia.
Qed.

(** Witness for X19: the sample table. *)
Lemma sections_offer_the_loaded_data_witness :
  exists pre lo hi marks,
    precompute sample_loaded = Ok pre
    /\ render_content pre 0 0 1 ["btn-search.n_clicks"%string]
       = SearchSection lo hi [lo; hi] marks (energy_entities sample_loaded)
                       ["Tunisia"%string] energy_types WindPower.
Proof.
  destruct (precompute sample_loaded) as [pre|e] eqn:Hpre;
    [|vm_compute in Hpre; discriminate Hpre].
  destruct (sections_offer_the_loaded_data sample_loaded pre 0 0 1
              "n_clicks" [] Hpre) as [_ [lo [hi [marks [Hrender _]]]]].
  exists pre, lo, hi, marks. split; [reflexivity | exact Hrender].
Defined.
